(** * Field-boundary segmentation notebook (Flevoland, Sentinel-2)

    A shallow embedding of [flevoland_field_boundary.ipynb].  The notebook is a
    straight-line script over the Earth Engine client: it filters a scene
    catalogue, cloud-masks and rescales every scene, adds a vegetation index,
    reduces the scenes to a median composite, samples hand-drawn polygons,
    trains a 20-tree forest, classifies the composite, runs an edge detector,
    binarises the edges and vectorises them.

    Layout of the development:
    - [Py]       Python-side effects: exceptions and the lines printed;
    - [EE]       the part of the Earth Engine image algebra the notebook
                 calls whose per-pixel meaning is fixed by the platform's
                 documentation (select, bitwiseAnd, eq, And, updateMask,
                 divide, normalizedDifference, rename, addBands, gt, ...);
    - [Notebook] the script itself, cell by cell, over a [Section] whose
                 variables are the pieces the platform keeps to itself
                 (catalogue contents, geometry predicates, the median
                 reducer, tree induction, the edge detector, polygon tracing).

    Numbers.  The stored digital numbers and quality words of the catalogue
    are unsigned integers, [N]; labels and 0/1 rasters are [Z]; real-valued
    rasters are exact rationals [Q].  The rounding of the platform's floating
    point is outside this model.

    Evaluation.  The client only assembles requests; the one value the
    script itself waits for and branches on is the size of the collection.
    Every expression is given here the value it denotes, at the line where
    it is written, and a request the platform would refuse ends the run
    there. *)

From Stdlib Require Import ZArith QArith Qabs String Ascii DecimalString List Lia.
From stdpp Require Import base option list gmap strings fin_maps.

Local Open Scope string_scope.
Local Open Scope Z_scope.
Local Open Scope list_scope.

(* ===================================================================== *)
(** * Python side: exceptions and standard output *)
(* ===================================================================== *)

Module Py.

(** What an Earth Engine call can refuse, as far as the notebook's calls can
    trigger it. *)
Inductive ee_error : Type :=
  | NoSuchBand (name : string)
  | BandCountMismatch
  | BadArgument (what : string)
  | NoTrainingData.

(** The exceptions that can end a run. *)
Inductive exn : Type :=
  | ValueError (msg : string)
  | KeyError (key : string)
  | EEException (e : ee_error).

(** A computation that may raise. *)
Inductive result (A : Type) : Type :=
  | Ok (a : A)
  | Raise (e : exn).
Arguments Ok {A} a.
Arguments Raise {A} e.

#[global] Instance result_ret : MRet result := fun A a => Ok a.
#[global] Instance result_bind : MBind result := fun A B k m =>
  match m with
  | Ok a => k a
  | Raise e => Raise e
  end.
#[global] Instance result_fmap : FMap result := fun A B f m =>
  match m with
  | Ok a => Ok (f a)
  | Raise e => Raise e
  end.

(** [[f(x) for x in xs]] where [f] may raise: the first exception wins. *)
Fixpoint traverse {A B} (f : A -> result B) (xs : list A) : result (list B) :=
  match xs with
  | [] => Ok []
  | x :: xs' =>
      match f x with
      | Raise e => Raise e
      | Ok y =>
          match traverse f xs' with
          | Raise e => Raise e
          | Ok ys => Ok (y :: ys)
          end
      end
  end.

(** A script: it reads and extends the lines printed so far and either ends
    with a value or with an exception.  The printed lines survive a raise. *)
Definition M (A : Type) : Type := list string -> result A * list string.

#[global] Instance M_ret : MRet M := fun A a out => (Ok a, out).
#[global] Instance M_bind : MBind M := fun A B k m out =>
  match m out with
  | (Ok a, out') => k a out'
  | (Raise e, out') => (Raise e, out')
  end.

Definition print (line : string) : M unit := fun out => (Ok tt, out ++ [line]).
Definition raise {A} (e : exn) : M A := fun out => (Raise e, out).
Definition lift {A} (r : result A) : M A := fun out => (r, out).

(** Run a script from an empty console. *)
Definition run {A} (m : M A) : result A * list string := m [].

(** The newline of ["\n..."] literals. *)
Definition nl : string := String (ascii_of_nat 10) EmptyString.

(** [f"{n}"] for a non-negative integer. *)
Definition str (n : nat) : string := NilEmpty.string_of_uint (Nat.to_uint n).

End Py.
Export Py.

(* ===================================================================== *)
(** * Rasters and images *)
(* ===================================================================== *)

Module Raster.

(** A pixel position on the common 10 m working grid. *)
Definition coord : Type := Z * Z.

(** One band: the values of its unmasked pixels.  A position that is absent
    is masked (or outside the footprint). *)
Abbreviation raster V := (gmap coord V).

(** An image is an ordered stack of named bands. *)
Abbreviation Image V := (list (string * gmap coord V)).

Definition bandNames {V} (img : Image V) : list string := fst <$> img.

(** The first band called [name]. *)
Fixpoint find_band {V} (name : string) (img : Image V) : option (raster V) :=
  match img with
  | [] => None
  | (n, r) :: rest => if decide (n = name) then Some r else find_band name rest
  end.

(** Value of band [name] at position [c], if the band exists and the pixel is
    unmasked there. *)
Definition value_at {V} (img : Image V) (name : string) (c : coord) : option V :=
  r ← find_band name img; r !! c.

(** Numbers that the platform compares after promotion to a common type. *)
Class Number (V : Type) := to_Q : V -> Q.
#[global] Instance N_Number : Number N := fun n => inject_Z (Z.of_N n).
#[global] Instance Z_Number : Number Z := inject_Z.
#[global] Instance Q_Number : Number Q := fun q => q.

End Raster.
Export Raster.

(* ===================================================================== *)
(** * Earth Engine image algebra *)
(* ===================================================================== *)

Module EE.

(** ** Band selection and naming *)

Definition select_band {V} (img : Image V) (name : string) : result (string * raster V) :=
  match find_band name img with
  | Some r => Ok (name, r)
  | None => Raise (EEException (NoSuchBand name))
  end.

(** [image.select(names)]: the named bands, in the order asked for. *)
Definition select {V} (img : Image V) (names : list string) : result (Image V) :=
  traverse (select_band img) names.

(** [image.rename(names)]: same rasters, new names, one per band. *)
Definition rename {V} (img : Image V) (names : list string) : result (Image V) :=
  if decide (length names = length img)
  then Ok (zip names (snd <$> img))
  else Raise (EEException BandCountMismatch).

(** [image.addBands(src)]: the bands of [src] appended after those of
    [image] (a clash of names, which the platform resolves by renaming the
    newcomer, does not arise for the scenes of the catalogue used here). *)
Definition addBands {V} (img src : Image V) : Image V := img ++ src.

(** ** Pixel-wise operations with a numeric operand *)

Definition map_bands {V W} (f : V -> W) (img : Image V) : Image W :=
  (fun b : string * raster V => (b.1, f <$> b.2)) <$> img.

(** [image.bitwiseAnd(k)] on an image of unsigned integers. *)
Definition bitwiseAnd (img : Image N) (k : N) : Image N :=
  map_bands (fun v => N.land v k) img.

(** [image.eq(k)]: 1 where the value equals [k], 0 elsewhere. *)
Definition eq {V} `{EqDecision V} (img : Image V) (k : V) : Image Z :=
  map_bands (fun v => if decide (v = k) then 1 else 0) img.

(** [image.gt(k)]: 1 where the value is strictly greater than [k], 0
    elsewhere; the result is an integer image. *)
Definition gt_px {V} `{Number V} (k : Q) (v : V) : Z :=
  if Qlt_le_dec k (to_Q v) then 1 else 0.
Definition gt {V} `{Number V} (img : Image V) (k : Q) : Image Z :=
  map_bands (gt_px k) img.

(** [image.divide(k)]: real division (the platform returns 0 when dividing
    by 0, which is also [Q]'s convention). *)
Definition divide {V} `{Number V} (img : Image V) (k : Q) : Image Q :=
  map_bands (fun v => (to_Q v / k)%Q) img.

(** ** Operations between two images *)

(** Bands are paired as the platform pairs them: a one-band operand is used
    against every band of the other; otherwise the two stacks must have the
    same number of bands and are paired by position.  The result takes the
    names of the longer operand (of the first, when equal). *)
Definition pair_bands {A B C} (g : raster A -> raster B -> raster C)
    (a : Image A) (b : Image B) : result (Image C) :=
  match b with
  | [(_, s)] => Ok ((fun x : string * raster A => (x.1, g x.2 s)) <$> a)
  | _ =>
      match a with
      | [(_, r)] => Ok ((fun y : string * raster B => (y.1, g r y.2)) <$> b)
      | _ =>
          if decide (length a = length b)
          then Ok (zip_with (fun (x : string * raster A) (y : string * raster B) => (x.1, g x.2 y.2)) a b)
          else Raise (EEException BandCountMismatch)
      end
  end.

(** [a.And(b)]: 1 where both values are non-zero, 0 elsewhere; masked where
    either operand is masked. *)
Definition and_px (x y : Z) : Z :=
  if decide (x = 0) then 0 else if decide (y = 0) then 0 else 1.
Definition And (a b : Image Z) : result (Image Z) :=
  pair_bands (map_zip_with and_px) a b.

(** [image.updateMask(mask)]: a pixel stays valid only where it was valid and
    the mask is valid and non-zero. *)
Definition keep_where {V} (r : raster V) (m : raster Z) : raster V :=
  map_imap (fun c v =>
              match m !! c with
              | Some w => if decide (w = 0) then None else Some v
              | None => None
              end) r.
Definition updateMask {V} (img : Image V) (mask : Image Z) : result (Image V) :=
  pair_bands keep_where img mask.

(** [image.normalizedDifference([b1, b2])]: one band called ["nd"] holding
    [(b1 - b2) / (b1 + b2)]; the output pixel is masked when either input is
    masked or negative. *)
Definition nd_px (x y : Q) : option Q :=
  if Qle_bool 0 x && Qle_bool 0 y then Some ((x - y) / (x + y))%Q else None.
Definition nd_raster (a b : raster Q) : raster Q :=
  map_imap (fun c x => y ← b !! c; nd_px x y) a.
Definition normalizedDifference (img : Image Q) (names : list string) : result (Image Q) :=
  match names with
  | [n1; n2] =>
      b1 ← select_band img n1;
      b2 ← select_band img n2;
      Ok [("nd", nd_raster b1.2 b2.2)]
  | _ => Raise (EEException (BadArgument "bandNames"))
  end.

End EE.

(* ===================================================================== *)
(** * Vector data, scenes and the platform's own algorithms *)
(* ===================================================================== *)

(** [ee.Geometry.Rectangle([west, south, east, north])] and
    [ee.Geometry.Polygon([ring, ...])], a ring being a list of [[x, y]]
    points; [Traced] is a geometry produced by the platform's vectoriser. *)
Inductive Geometry : Type :=
  | Rectangle (coords : list Q)
  | Polygon (rings : list (list (list Q)))
  | Traced (scale : Q) (clip : Geometry) (cells : list coord).

(** A property value of a feature or of a scene. *)
Inductive prop : Type :=
  | PInt (z : Z)
  | PNum (q : Q)
  | PStr (s : string).

Definition prop_Q (p : prop) : option Q :=
  match p with
  | PInt z => Some (inject_Z z)
  | PNum q => Some q
  | PStr _ => None
  end.

Definition prop_Z (p : prop) : option Z :=
  match p with
  | PInt z => Some z
  | _ => None
  end.

(** [ee.Feature(geometry, properties)]. *)
Record Feature : Type := mkFeature {
  geometry : option Geometry;
  properties : gmap string prop
}.

(** One acquisition of the catalogue: where and when it was taken, its
    metadata and its bands of stored digital numbers (unsigned integers, the
    quality band included). *)
Record Scene : Type := mkScene {
  footprint : Geometry;
  time_start : Z;
  metadata : gmap string prop;
  pixels : Image N
}.

(** What the notebook consumes without seeing inside: the catalogue, the
    geometry predicates, the median reducer, tree induction and prediction,
    the edge detector, and the grouping of pixels into connected regions. *)
Class Platform : Type := {
  catalog : string -> list Scene;
  date_millis : string -> Z;
  intersects : Geometry -> Geometry -> bool;
  median_of : list Q -> Q;
  pixels_of : Q -> Geometry -> list coord;
  tree : Type;
  grow : nat -> list (list Q * Z) -> tree;
  predict : tree -> list Q -> Z;
  canny : Image Z -> Q -> Q -> Image Q;
  components : (coord -> coord -> bool) -> Q -> Geometry -> raster Z -> list (list coord)
}.

Module EEPlatform.
Section WithPlatform.
Context {P : Platform}.

(** ** Collections *)

Definition ImageCollection (id : string) : list Scene := catalog id.

Definition filterBounds (col : list Scene) (g : Geometry) : list Scene :=
  List.filter (fun s => intersects (footprint s) g) col.

(** [filterDate(start, end)]: start inclusive, end exclusive. *)
Definition filterDate (col : list Scene) (start stop : string) : list Scene :=
  List.filter (fun s => (date_millis start <=? time_start s)
                        && (time_start s <? date_millis stop)) col.

(** [filter(ee.Filter.lt(name, k))]: scenes whose numeric property [name]
    is strictly below [k]; a scene without the property is dropped. *)
Definition filter_lt (col : list Scene) (name : string) (k : Q) : list Scene :=
  List.filter (fun s => match metadata s !! name ≫= prop_Q with
                        | Some v => negb (Qle_bool k v)
                        | None => false
                        end) col.

(** [col.size().getInfo()]. *)
Definition size {A} (col : list A) : nat := length col.

(** ** The median reducer over a collection *)

Definition push {V} (x : option V) (acc : option (list V)) : option (list V) :=
  match x, acc with
  | None, None => None
  | Some v, None => Some [v]
  | None, Some l => Some l
  | Some v, Some l => Some (v :: l)
  end.

(** For each position, the values of the rasters that are unmasked there, in
    collection order. *)
Definition gather {V} (rs : list (raster V)) : raster (list V) :=
  foldr (merge push) ∅ rs.

(** [col.median()]: band by band (named as in the first image), the median
    of the unmasked values at each position; a position unmasked in no image
    stays masked. *)
Definition median (col : list (Image Q)) : Image Q :=
  match col with
  | [] => []
  | first :: _ =>
      (fun b : string * raster Q =>
         (b.1, median_of <$> gather (omap (find_band b.1) col))) <$> first
  end.

(** ** Sampling *)

(** The band values at one position, provided every band is unmasked. *)
Definition sample_pixel (img : Image Q) (c : coord) : option (list (string * prop)) :=
  mapM (fun b : string * raster Q => v ← b.2 !! c; Some (b.1, PNum v)) img.

Definition copy_properties (f : Feature) (names : list string) : gmap string prop :=
  filter (fun kv : string * prop => kv.1 ∈ names) (properties f).

(** The samples one region contributes: one feature per pixel of the region
    at the given scale, carrying the band values and the region's copied
    properties (band and property names are disjoint in this notebook). *)
Definition samples_of (img : Image Q) (names : list string) (scale : Q)
    (f : Feature) : list Feature :=
  match geometry f with
  | None => []
  | Some g =>
      omap (fun c => vals ← sample_pixel img c;
                     Some (mkFeature None (list_to_map vals ∪ copy_properties f names)))
           (pixels_of scale g)
  end.

(** [image.sampleRegions(collection, properties, scale, tileScale)];
    [tileScale] only changes how the platform tiles the work. *)
Definition sampleRegions (img : Image Q) (collection : list Feature)
    (names : list string) (scale : Q) (tileScale : Z) : list Feature :=
  collection ≫= samples_of img names scale.

(** ** Classification *)

(** [ee.Classifier.smileRandomForest(numberOfTrees)], not yet trained. *)
Record Learner : Type := mkLearner { numberOfTrees : nat }.

Definition smileRandomForest (n : nat) : Learner := mkLearner n.

(** A trained forest. *)
Record Classifier : Type := mkClassifier {
  trees : list tree;
  classProperty : string;
  inputProperties : list string
}.

(** A training row: the predictor values and the integer class. *)
Definition row_of (cls : string) (inputs : list string) (f : Feature)
    : option (list Q * Z) :=
  x ← mapM (fun n => properties f !! n ≫= prop_Q) inputs;
  y ← properties f !! cls ≫= prop_Z;
  Some (x, y).

Definition rows_of (cls : string) (inputs : list string) (features : list Feature)
    : list (list Q * Z) :=
  omap (row_of cls inputs) features.

(** [learner.train(features, classProperty, inputProperties)]: one tree per
    index below [numberOfTrees], each grown on the usable rows; there must
    be at least one row. *)
Definition train (l : Learner) (features : list Feature) (cls : string)
    (inputs : list string) : result Classifier :=
  match rows_of cls inputs features with
  | [] => Raise (EEException NoTrainingData)
  | rows =>
      Ok (mkClassifier ((fun i => grow i rows) <$> seq 0 (numberOfTrees l)) cls inputs)
  end.

Definition tally (z : Z) (votes : list Z) : nat := length (List.filter (Z.eqb z) votes).

(** The class with the most votes (the earliest such class on a tie). *)
Fixpoint plurality_from (best : Z) (cands votes : list Z) : Z :=
  match cands with
  | [] => best
  | z :: rest =>
      plurality_from (if (tally best votes <? tally z votes)%nat then z else best) rest votes
  end.
Definition plurality (votes : list Z) : Z :=
  match votes with
  | [] => 0
  | z :: rest => plurality_from z rest votes
  end.

(** [image.classify(classifier)]: one integer band ["classification"],
    valid where every input band is valid. *)
Definition classify_px (clf : Classifier) (x : list Q) : Z :=
  plurality ((fun t => predict t x) <$> trees clf).
Definition classify (img : Image Q) (clf : Classifier) : result (Image Z) :=
  bands ← EE.select img (inputProperties clf);
  match bands with
  | [] => Raise (EEException (BadArgument "inputProperties"))
  | b0 :: _ =>
      Ok [("classification",
           map_imap (fun c _ =>
                       x ← mapM (fun b : string * raster Q => b.2 !! c) bands;
                       Some (classify_px clf x)) b0.2)]
  end.

(** ** Edges and vectors *)

(** [ee.Algorithms.CannyEdgeDetector(image, threshold, sigma)]. *)
Definition CannyEdgeDetector (img : Image Z) (threshold sigma : Q) : Image Q :=
  canny img threshold sigma.

(** Neighbouring positions: the four edge neighbours, and with
    [eightConnected] the four diagonal ones as well. *)
Definition adjacent (eightConnected : bool) (p q : coord) : bool :=
  let dx := Z.abs (p.1 - q.1) in
  let dy := Z.abs (p.2 - q.2) in
  if eightConnected
  then (Z.max dx dy =? 1)
  else (dx + dy =? 1).

Inductive Reducer : Type :=
  | countEvery.

(** What a reducer yields for one region. *)
Definition reduce_region (r : Reducer) (cells : list coord) : gmap string prop :=
  match r with
  | countEvery => {[ "count" := PInt (Z.of_nat (length cells)) ]}
  end.

(** The value shared by the pixels of a region. *)
Definition region_label (r : raster Z) (cells : list coord) : option Z :=
  c ← head cells; r !! c.

(** [image.reduceToVectors(scale, geometry, eightConnected, labelProperty,
    reducer)]: the first band is cut, inside [geometry] and at [scale], into
    connected regions of equal value; each region becomes a feature whose
    label is the region's value and whose other properties come from the
    reducer. *)
Definition reduceToVectors (img : Image Z) (scale : Q) (g : Geometry)
    (eightConnected : bool) (labelProperty : string) (reducer : Reducer)
    : result (list Feature) :=
  match img with
  | [] => Raise (EEException (BadArgument "image"))
  | (_, r) :: _ =>
      Ok ((fun cells =>
             mkFeature (Some (Traced scale g cells))
                       (match region_label r cells with
                        | Some v => <[labelProperty := PInt v]> (reduce_region reducer cells)
                        | None => reduce_region reducer cells
                        end))
          <$> components (adjacent eightConnected) scale g r)
  end.

End WithPlatform.
End EEPlatform.
Import EEPlatform.

(* ===================================================================== *)
(** * The notebook *)
(* ===================================================================== *)

Module Notebook.

(** ** 2. Project configuration *)

Definition AOI : Geometry := Rectangle [5.3; 52.4; 5.7; 52.6]%Q.

Definition START_DATE : string := "2022-07-01".
Definition END_DATE : string := "2022-07-31".

Definition BANDS : list string := ["B2"; "B3"; "B4"; "B8"].
Definition FEATURE_BANDS : list string := BANDS ++ ["NDVI"].

Record class_info : Type := mkClass { value : Z; color : string }.

Definition CLASSES : gmap string class_info :=
  <["Field" := mkClass 1 "green"]> (<["Non-Field" := mkClass 0 "gray"]> ∅).

Definition CLASS_PROPERTY : string := "landcover".

(** [CLASSES[name]['value']]. *)
Definition class_value (name : string) : result Z :=
  match CLASSES !! name with
  | Some c => Ok (value c)
  | None => Raise (KeyError name)
  end.

(** The literals that select the scenes, gathered so that the script can be
    read at other settings as well; [notebook_config] is the notebook's. *)
Record Config : Type := mkConfig {
  aoi : Geometry;
  start_date : string;
  end_date : string;
  cloud_ceiling : Q
}.

Definition notebook_config : Config := mkConfig AOI START_DATE END_DATE 10%Q.

(** ** 3. Image and feature preparation *)

Definition mask_s2_clouds (image : Image N) : result (Image Q) :=
  qa ← EE.select image ["QA60"];
  let cloud_bit_mask := N.shiftl 1 10 in
  let cirrus_bit_mask := N.shiftl 1 11 in
  mask ← EE.And (EE.eq (EE.bitwiseAnd qa cloud_bit_mask) 0%N)
                (EE.eq (EE.bitwiseAnd qa cirrus_bit_mask) 0%N);
  masked ← EE.updateMask image mask;
  Ok (EE.divide masked 10000%Q).

Definition add_ndvi (image : Image Q) : result (Image Q) :=
  nd ← EE.normalizedDifference image ["B8"; "B4"];
  ndvi ← EE.rename nd ["NDVI"];
  Ok (EE.addBands image ndvi).

(** ** 6. Binarisation of the edge strength: [edges.gt(0)] *)

Definition binarize {V} `{Number V} (edge_strength : Image V) : Image Z :=
  EE.gt edge_strength 0%Q.

(** ** 4. Ground truth *)

Definition square (x0 y0 x1 y1 : Q) : Geometry :=
  Polygon [[[x0; y0]; [x0; y1]; [x1; y1]; [x1; y0]]].

Definition labelled (g : Geometry) (v : Z) : Feature :=
  mkFeature (Some g) (<["landcover" := PInt v]> ∅).

Definition ground_truth : result (list Feature) :=
  f1 ← class_value "Field";
  f2 ← class_value "Field";
  n1 ← class_value "Non-Field";
  n2 ← class_value "Non-Field";
  Ok [ labelled (square 5.45 52.55 5.46 52.54) f1;
       labelled (square 5.55 52.48 5.56 52.47) f2;
       labelled (square 5.34 52.43 5.35 52.42) n1;
       labelled (square 5.65 52.52 5.66 52.51) n2 ]%Q.

(** ** 7. What is put on the map *)

Record VisParams : Type := mkVis {
  vis_bands : list string;
  vis_min : option Q;
  vis_max : option Q;
  vis_palette : list string;
  vis_color : option string
}.

Inductive Layer : Type :=
  | RealLayer (img : Image Q) (vis : VisParams) (name : string)
  | LabelLayer (img : Image Z) (vis : VisParams) (name : string)
  | VectorLayer (fc : list Feature) (vis : VisParams) (name : string).

Record MapView : Type := mkMap {
  center : option (Geometry * Z);
  layers : list Layer;
  legend : option (string * list string * list string)
}.

Section Script.
Context {P : Platform}.

Definition s2_collection (cfg : Config) : list Scene :=
  filter_lt
    (filterDate
       (filterBounds (ImageCollection "COPERNICUS/S2_SR_HARMONIZED") (aoi cfg))
       (start_date cfg) (end_date cfg))
    "CLOUDY_PIXEL_PERCENTAGE" (cloud_ceiling cfg).

(** [col.map(mask_s2_clouds).map(add_ndvi).median().select(FEATURE_BANDS)]. *)
Definition composite_of (col : list Scene) : result (Image Q) :=
  masked ← traverse mask_s2_clouds (pixels <$> col);
  indexed ← traverse add_ndvi masked;
  EE.select (median indexed) FEATURE_BANDS.

Definition sample (composite : Image Q) (truth : list Feature) : list Feature :=
  sampleRegions composite truth [CLASS_PROPERTY] 10%Q 4.

Definition fit (training : list Feature) : result Classifier :=
  train (smileRandomForest 20) training CLASS_PROPERTY FEATURE_BANDS.

Definition detect_edges (classification : Image Z) : Image Q :=
  CannyEdgeDetector classification 0.1%Q 1%Q.

Definition vectorize (region : Geometry) (binary : Image Z) : result (list Feature) :=
  reduceToVectors binary 10%Q region true "label" countEvery.

(** The names the notebook has bound when its last cell returns. *)
Record Outputs : Type := mkOutputs {
  collection_size : nat;
  composite_image : Image Q;
  training_data : list Feature;
  classifier : Classifier;
  classification_map : Image Z;
  edges : Image Q;
  binary_edges : Image Z;
  field_boundaries : list Feature;
  Map : MapView
}.

Definition rgb_vis_params : VisParams :=
  mkVis ["B4"; "B3"; "B2"] (Some 0%Q) (Some 0.3%Q) [] None.

Definition show (region : Geometry) (composite : Image Q) (classification : Image Z)
    (boundaries : list Feature) : MapView :=
  mkMap (Some (region, 12))
        [ RealLayer composite rgb_vis_params "True Color Composite";
          LabelLayer classification
            (mkVis [] (Some 0%Q) (Some 1%Q) ["gray"; "green"] None)
            "Intermediate Segmentation";
          VectorLayer boundaries (mkVis [] None None [] (Some "yellow"))
            "Extracted Field Boundaries" ]
        (Some ("Legend", ["Field Boundary"], ["yellow"])).

(** The cells in order: what is printed, the check on the number of scenes,
    and the value each name is bound to.  An exception ends the run where it
    is raised. *)
Definition pipeline (cfg : Config) : M Outputs :=
  print (nl +:+ "Step 2: Configuring project parameters...");;
  print (nl +:+ "Step 3: Preparing Sentinel-2 image and features...");;
  let collection := s2_collection cfg in
  let n := size collection in
  print ("   - Found " +:+ str n +:+ " images for the composite.");;
  (if (n =? 0)%nat
   then raise (ValueError "The GEE image collection is empty. Try expanding the date range.")
   else mret tt);;
  composite ← lift (composite_of collection);
  print (nl +:+ "Step 4: Creating ground truth polygons for supervised segmentation...");;
  truth ← lift ground_truth;
  let training := sample composite truth in
  print (nl +:+ "Step 5: Training classifier and creating a simplified segmentation map...");;
  forest ← lift (fit training);
  classification ← lift (classify composite forest);
  print (nl +:+ "Step 6: Running edge detection and vectorizing boundaries...");;
  let edge_strength := detect_edges classification in
  let binary := binarize edge_strength in
  boundaries ← lift (vectorize (aoi cfg) binary);
  print (nl +:+ "Step 7: Generating and displaying the final map...");;
  let view := show (aoi cfg) composite classification boundaries in
  print (nl +:+ nl +:+ "==================== PROJECT COMPLETE ====================");;
  mret (mkOutputs n composite training forest classification edge_strength binary
                  boundaries view).

Definition notebook : M Outputs := pipeline notebook_config.

End Script.
End Notebook.
Import Notebook.

(* ===================================================================== *)
(** * A small concrete platform *)
(* ===================================================================== *)

(** A platform small enough to run the script on: four pixels, three July
    scenes and one August scene, a lower median, trees that are a single
    leaf, an edge detector that returns its input, and regions of one pixel
    each. *)
Module Demo.

Definition grid : list coord := [(0, 0); (1, 0); (0, 1); (1, 1)].

Definition band_of (name : string) (values : list N) : string * raster N :=
  (name, list_to_map (zip grid values)).

Definition scene (t : Z) (cloudy : Q) (b2 b3 b4 b8 qa : list N) : Scene :=
  mkScene AOI t (<["CLOUDY_PIXEL_PERCENTAGE" := PNum cloudy]> ∅)
          [ band_of "B2" b2; band_of "B3" b3; band_of "B4" b4; band_of "B8" b8;
            band_of "QA60" qa ].

Definition july_05 : Scene :=
  scene 1657000000000 3%Q
        [400; 420; 900; 1500]%N [600; 640; 1000; 1600]%N [500; 520; 1200; 1800]%N
        [3000; 3200; 1100; 1700]%N [0; 0; 0; 1024]%N.
Definition july_15 : Scene :=
  scene 1657900000000 7%Q
        [410; 430; 950; 1550]%N [610; 650; 1050; 1650]%N [2000; 540; 1250; 1850]%N
        [5000; 3300; 1150; 1750]%N [0; 2048; 0; 0]%N.
Definition july_25 : Scene :=
  scene 1658700000000 55%Q
        [4000; 4000; 4000; 4000]%N [4000; 4000; 4000; 4000]%N [4000; 4000; 4000; 4000]%N
        [4000; 4000; 4000; 4000]%N [1024; 1024; 3072; 1024]%N.
Definition august_02 : Scene :=
  scene 1659400000000 1%Q
        [300; 300; 300; 300]%N [300; 300; 300; 300]%N [300; 300; 300; 300]%N
        [300; 300; 300; 300]%N [0; 0; 0; 0]%N.

Definition demo_catalog (id : string) : list Scene :=
  if decide (id = "COPERNICUS/S2_SR_HARMONIZED")
  then [july_05; july_15; july_25; august_02]
  else [].

Definition demo_date_millis (d : string) : Z :=
  if decide (d = "2022-07-01") then 1656633600000
  else if decide (d = "2022-07-31") then 1659225600000
  else 0.

Fixpoint insert_sorted (x : Q) (l : list Q) : list Q :=
  match l with
  | [] => [x]
  | y :: rest => if Qle_bool x y then x :: l else y :: insert_sorted x rest
  end.

Definition demo_median (l : list Q) : Q :=
  nth (length l / 2) (foldr insert_sorted [] l) 0%Q.

(** Each hand-drawn square covers the one pixel of the grid it lies over. *)
Definition demo_pixels_of (scale : Q) (g : Geometry) : list coord :=
  match g with
  | Polygon (((x :: _) :: _) :: _) =>
      if Qle_bool x 5.4 then [(0, 1)]
      else if Qle_bool x 5.5 then [(0, 0)]
      else if Qle_bool x 5.6 then [(1, 0)]
      else [(1, 1)]
  | _ => []
  end.

(** The [i]-th tree answers with the class of the [i]-th training row
    (counting cyclically). *)
Definition demo_grow (i : nat) (rows : list (list Q * Z)) : Z :=
  nth (i mod length rows) (snd <$> rows) 0.

Definition demo_canny (img : Image Z) (threshold sigma : Q) : Image Q :=
  EE.map_bands inject_Z img.

Definition demo_components (adj : coord -> coord -> bool) (scale : Q) (g : Geometry)
    (r : raster Z) : list (list coord) :=
  (fun kv : coord * Z => [kv.1]) <$> map_to_list r.

Definition demo : Platform := {|
  catalog := demo_catalog;
  date_millis := demo_date_millis;
  intersects := fun _ _ => true;
  median_of := demo_median;
  pixels_of := demo_pixels_of;
  tree := Z;
  grow := demo_grow;
  predict := fun t _ => t;
  canny := demo_canny;
  components := demo_components
|}.

(** What the notebook has bound at the end of its run on [demo]. *)
Definition no_outputs : Outputs (P := demo) :=
  mkOutputs 0 [] [] (mkClassifier [] "" []) [] [] [] [] (mkMap None [] None).

Definition demo_outputs : Outputs (P := demo) :=
  Eval vm_compute in
    match (run (pipeline (P := demo) notebook_config)).1 with
    | Ok out => out
    | Raise _ => no_outputs
    end.

End Demo.

(* ===================================================================== *)
(** * Vocabulary of the statements *)
(* ===================================================================== *)

(** Neither the cloud bit (10) nor the cirrus bit (11) of a QA word is set. *)
Definition clear_sky (qa : N) : bool :=
  negb (N.testbit qa 10) && negb (N.testbit qa 11).

(** The mask raster that [mask_s2_clouds] computes from the QA band. *)
Definition sky_mask (rqa : raster N) : raster Z :=
  map_zip_with EE.and_px
    ((fun v => if decide (v = 0%N) then 1 else 0) <$> ((fun v => N.land v (N.shiftl 1 10)) <$> rqa))
    ((fun v => if decide (v = 0%N) then 1 else 0) <$> ((fun v => N.land v (N.shiftl 1 11)) <$> rqa)).

(** The rescaling of a stored digital number. *)
Definition rescaled (dn : N) : Q := (to_Q dn / 10000)%Q.

(** What a scene with bands [image] contributes to band [name] of the
    composite at position [c]: its rescaled value, if the scene has a
    clear-sky value there. *)
Definition contribution (image : Image N) (name : string) (c : coord) : option Q :=
  qa ← value_at image "QA60" c;
  v ← value_at image name c;
  if clear_sky qa then Some (rescaled v) else None.

(** Every pixel of every band is 0 or 1. *)
Definition binary (img : Image Z) : Prop :=
  forall b c v, b ∈ img -> b.2 !! c = Some v -> v = 0 \/ v = 1.

(** The lines a complete run prints when [n] scenes pass the filters; a run
    that stops early has printed a prefix of them. *)
Definition transcript (n : nat) : list string :=
  [ nl +:+ "Step 2: Configuring project parameters...";
    nl +:+ "Step 3: Preparing Sentinel-2 image and features...";
    "   - Found " +:+ str n +:+ " images for the composite.";
    nl +:+ "Step 4: Creating ground truth polygons for supervised segmentation...";
    nl +:+ "Step 5: Training classifier and creating a simplified segmentation map...";
    nl +:+ "Step 6: Running edge detection and vectorizing boundaries...";
    nl +:+ "Step 7: Generating and displaying the final map...";
    nl +:+ nl +:+ "==================== PROJECT COMPLETE ====================" ].

(** The polygons the notebook draws, with the class values looked up. *)
Definition drawn_polygons : list Feature :=
  [ labelled (square 5.45 52.55 5.46 52.54) 1;
    labelled (square 5.55 52.48 5.56 52.47) 1;
    labelled (square 5.34 52.43 5.35 52.42) 0;
    labelled (square 5.65 52.52 5.66 52.51) 0 ]%Q.

(** The class value a feature carries, if any. *)
Definition label_of (f : Feature) : option Z :=
  properties f !! CLASS_PROPERTY ≫= prop_Z.


(** The vegetation index one scene yields at position [c]: the normalized
    difference of its rescaled near-infrared and red values, where both are
    clear-sky values. *)
Definition scene_index (image : Image N) (c : coord) : option Q :=
  nir ← contribution image "B8" c;
  red ← contribution image "B4" c;
  Some ((nir - red) / (nir + red))%Q.

(** The three filters of [s2_collection] as one test on a scene. *)
Definition selected {P : Platform} (cfg : Config) (s : Scene) : bool :=
  intersects (footprint s) (aoi cfg)
  && ((date_millis (start_date cfg) <=? time_start s)
      && (time_start s <? date_millis (end_date cfg)))
  && match metadata s !! "CLOUDY_PIXEL_PERCENTAGE" ≫= prop_Q with
     | Some v => negb (Qle_bool (cloud_ceiling cfg) v)
     | None => false
     end.

(* ===================================================================== *)
(** * Facts about the image algebra *)
(* ===================================================================== *)

Section AlgebraFacts.

Lemma traverse_Ok {A B} (f : A -> result B) xs ys :
  traverse f xs = Ok ys -> Forall2 (fun x y => f x = Ok y) xs ys.
Proof.
  revert ys. induction xs as [|x xs IH]; intros ys Hys; simpl in Hys.
  - inversion Hys. constructor.
  - destruct (f x) as [y|e] eqn:Hfx; [|discriminate].
    destruct (traverse f xs) as [ys'|e] eqn:Hrest; [|discriminate].
    inversion Hys; subst. constructor; auto.
Qed.

Lemma traverse_total {A B} (f : A -> result B) (g : A -> B) xs :
  (forall x, x ∈ xs -> f x = Ok (g x)) -> traverse f xs = Ok (g <$> xs).
Proof.
  induction xs as [|x xs IH]; intros Hall; simpl; [reflexivity|].
  rewrite (Hall x) by constructor.
  rewrite IH; [reflexivity|]. intros y Hy. apply Hall. by constructor.
Qed.

Lemma find_band_rebuild {V W} (g : raster V -> raster W) (name : string) (img : Image V) :
  find_band name ((fun b : string * raster V => (b.1, g b.2)) <$> img)
  = g <$> find_band name img.
Proof.
  induction img as [|[n r] img IH]; simpl; [reflexivity|].
  destruct (decide (n = name)); [reflexivity | exact IH].
Qed.

Lemma find_band_app {V} (name : string) (a b : Image V) :
  find_band name (a ++ b)
  = match find_band name a with Some r => Some r | None => find_band name b end.
Proof.
  induction a as [|[n r] a IH]; simpl; [reflexivity|].
  destruct (decide (n = name)); [reflexivity | exact IH].
Qed.

Lemma find_band_names {V} (name : string) (img : Image V) r :
  find_band name img = Some r -> name ∈ bandNames img.
Proof.
  induction img as [|[n r'] img IH]; simpl; [discriminate|].
  destruct (decide (n = name)) as [->|]; intros Hf.
  - constructor.
  - apply list_elem_of_further, IH, Hf.
Qed.

Lemma find_band_None {V} (name : string) (img : Image V) :
  name ∉ bandNames img -> find_band name img = None.
Proof.
  intros Hn. destruct (find_band name img) eqn:E; [|reflexivity].
  exfalso. eauto using find_band_names.
Qed.

Lemma value_at_map_bands {V W} (f : V -> W) (img : Image V) (name : string) (c : coord) :
  value_at (EE.map_bands f img) name c = f <$> value_at img name c.
Proof.
  unfold value_at, EE.map_bands.
  rewrite (find_band_rebuild (fmap f)).
  destruct (find_band name img) as [r|]; simpl; [|reflexivity].
  apply lookup_fmap.
Qed.

(** The flag test of the cloud mask, bit by bit. *)
Lemma land_bit_zero (q n : N) :
  N.land q (N.shiftl 1 n) = 0%N <-> N.testbit q n = false.
Proof.
  rewrite N.shiftl_1_l. split.
  - intros Hz.
    assert (Hb : N.testbit (N.land q (2 ^ n)) n = false)
      by (rewrite Hz; apply N.bits_0).
    rewrite N.land_spec, N.pow2_bits_true in Hb. by rewrite andb_true_r in Hb.
  - intros Hb. apply N.bits_inj. intros m.
    rewrite N.land_spec, N.bits_0, N.pow2_bits_eqb.
    destruct (N.eqb_spec n m) as [<-|Hne].
    + rewrite Hb. reflexivity.
    + apply andb_false_r.
Qed.

Lemma keep_where_lookup {V} (r : raster V) (m : raster Z) (c : coord) :
  EE.keep_where r m !! c
  = match m !! c with
    | Some w => if decide (w = 0) then None else r !! c
    | None => None
    end.
Proof.
  unfold EE.keep_where. rewrite map_lookup_imap.
  destruct (r !! c); simpl; [reflexivity|].
  destruct (m !! c) as [w|]; [|reflexivity]. by destruct (decide (w = 0)).
Qed.

End AlgebraFacts.

(* ===================================================================== *)
(** * Cloud masking and rescaling *)
(* ===================================================================== *)

Section CloudMask.

Lemma sky_mask_lookup (rqa : raster N) (c : coord) :
  sky_mask rqa !! c = (fun qa => if clear_sky qa then 1 else 0) <$> rqa !! c.
Proof.
  unfold sky_mask. rewrite map_lookup_zip_with, !lookup_fmap.
  destruct (rqa !! c) as [qa|]; simpl; [|reflexivity]. f_equal.
  unfold clear_sky, EE.and_px.
  destruct (decide (N.land qa (N.shiftl 1 10) = 0%N)) as [H10|H10];
  destruct (decide (N.land qa (N.shiftl 1 11) = 0%N)) as [H11|H11];
  rewrite ?land_bit_zero in H10, H11;
  try apply not_false_is_true in H10; try apply not_false_is_true in H11;
  rewrite ?H10, ?H11; try reflexivity.
Qed.

Lemma mask_s2_clouds_Ok (image : Image N) (rqa : raster N) :
  find_band "QA60" image = Some rqa ->
  mask_s2_clouds image
  = Ok (EE.divide ((fun b : string * raster N => (b.1, EE.keep_where b.2 (sky_mask rqa)))
                     <$> image) 10000%Q).
Proof.
  intros Hqa. unfold mask_s2_clouds, EE.select, EE.select_band. simpl.
  rewrite Hqa. reflexivity.
Qed.

Lemma mask_s2_clouds_Raise (image : Image N) :
  find_band "QA60" image = None ->
  mask_s2_clouds image = Raise (EEException (NoSuchBand "QA60")).
Proof.
  intros Hqa. unfold mask_s2_clouds, EE.select, EE.select_band. simpl.
  rewrite Hqa. reflexivity.
Qed.

(** Band by band and pixel by pixel, what the masked and rescaled scene
    holds. *)
Lemma mask_s2_clouds_value (image : Image N) (out : Image Q) (name : string) (c : coord) :
  mask_s2_clouds image = Ok out ->
  value_at out name c = contribution image name c.
Proof.
  intros Hout. unfold contribution. destruct (find_band "QA60" image) as [rqa|] eqn:Hqa.
  - rewrite (mask_s2_clouds_Ok _ _ Hqa) in Hout. inversion Hout; subst out; clear Hout.
    unfold EE.divide. rewrite value_at_map_bands. unfold value_at.
    rewrite (find_band_rebuild (fun r => EE.keep_where r (sky_mask rqa))), Hqa.
    simpl. destruct (find_band name image) as [r|]; simpl.
    + rewrite keep_where_lookup, sky_mask_lookup.
      destruct (rqa !! c) as [qa|]; simpl; [|reflexivity].
      destruct (clear_sky qa); simpl.
      * destruct (r !! c); reflexivity.
      * by destruct (r !! c).
    + by destruct (rqa !! c).
  - rewrite (mask_s2_clouds_Raise _ Hqa) in Hout. discriminate.
Qed.

Lemma rescaled_nonneg (dn : N) : (0 <= rescaled dn)%Q.
Proof.
  unfold rescaled, to_Q, N_Number, Qle, Qdiv, Qmult, Qinv, inject_Z. cbn. lia.
Qed.

Lemma rescaled_range (dn : N) : (dn <= 10000)%N -> (0 <= rescaled dn <= 1)%Q.
Proof.
  intros Hhi. split; [apply rescaled_nonneg|].
  unfold rescaled, to_Q, N_Number, Qle, Qdiv, Qmult, Qinv, inject_Z. cbn. lia.
Qed.

(** A masked and rescaled scene holds no negative value. *)
Lemma mask_s2_clouds_nonneg (image : Image N) (out : Image Q) (name : string)
    (r : raster Q) (c : coord) (v : Q) :
  mask_s2_clouds image = Ok out ->
  find_band name out = Some r -> r !! c = Some v -> (0 <= v)%Q.
Proof.
  intros Hout Hr Hv.
  assert (Hval : value_at out name c = Some v) by (unfold value_at; by rewrite Hr).
  rewrite (mask_s2_clouds_value _ _ _ _ Hout) in Hval. unfold contribution in Hval.
  destruct (value_at image "QA60" c) as [qa|]; [|discriminate].
  destruct (value_at image name c) as [dn|]; [|discriminate].
  cbn [mbind option_bind] in Hval. destruct (clear_sky qa); [|discriminate].
  inversion Hval. apply rescaled_nonneg.
Qed.

End CloudMask.

(** C3.  For every pixel of a scene that carries a quality word, the cloud
    mask excludes the pixel exactly when bit 10 (cloud) or bit 11 (cirrus)
    of the word is set; when neither is set the pixel is kept (with its
    value rescaled).  The masking itself succeeds on every scene that has a
    ["QA60"] band. *)
Theorem cloud_mask_excludes_cloud_and_cirrus (image : Image N) (rqa : raster N) :
  find_band "QA60" image = Some rqa ->
  exists out,
    mask_s2_clouds image = Ok out /\
    forall (name : string) (c : coord) (qa v : N),
      rqa !! c = Some qa ->
      value_at image name c = Some v ->
      (value_at out name c = None <-> N.testbit qa 10 = true \/ N.testbit qa 11 = true)
      /\ (N.testbit qa 10 = false -> N.testbit qa 11 = false ->
          value_at out name c = Some (rescaled v)).
Proof.
  intros Hqa. eexists. split; [apply (mask_s2_clouds_Ok _ _ Hqa)|].
  intros name c qa v Hc Hv.
  assert (Hqv : value_at image "QA60" c = Some qa)
    by (unfold value_at; rewrite Hqa; exact Hc).
  rewrite (mask_s2_clouds_value _ _ name c (mask_s2_clouds_Ok _ _ Hqa)).
  unfold contribution. rewrite Hqv, Hv.
  cbn -[N.testbit]. unfold clear_sky.
  destruct (N.testbit qa 10), (N.testbit qa 11); cbn [negb andb];
    (split; [split|]); try tauto; try discriminate; try reflexivity;
    intros; try (intuition discriminate).
Qed.

Lemma cloud_mask_excludes_cloud_and_cirrus_witness :
  find_band "QA60" (pixels Demo.july_05) = Some (Demo.band_of "QA60" [0; 0; 0; 1024]%N).2 /\
  exists out,
    mask_s2_clouds (pixels Demo.july_05) = Ok out /\
    forall (name : string) (c : coord) (qa v : N),
      (Demo.band_of "QA60" [0; 0; 0; 1024]%N).2 !! c = Some qa ->
      value_at (pixels Demo.july_05) name c = Some v ->
      (value_at out name c = None <-> N.testbit qa 10 = true \/ N.testbit qa 11 = true)
      /\ (N.testbit qa 10 = false -> N.testbit qa 11 = false ->
          value_at out name c = Some (rescaled v)).
Proof.
  split; [reflexivity|].
  apply (cloud_mask_excludes_cloud_and_cirrus (pixels Demo.july_05)). reflexivity.
Defined.

(* ===================================================================== *)
(** * The vegetation index *)
(* ===================================================================== *)

Lemma nd_px_nonneg (x y : Q) :
  (0 <= x)%Q -> (0 <= y)%Q -> EE.nd_px x y = Some ((x - y) / (x + y))%Q.
Proof.
  intros Hx Hy. unfold EE.nd_px.
  apply Qle_bool_iff in Hx, Hy. by rewrite Hx, Hy.
Qed.


Lemma add_ndvi_Ok (image : Image Q) (b8 b4 : raster Q) :
  find_band "B8" image = Some b8 ->
  find_band "B4" image = Some b4 ->
  add_ndvi image = Ok (image ++ [("NDVI", EE.nd_raster b8 b4)]).
Proof.
  intros H8 H4. unfold add_ndvi, EE.normalizedDifference, EE.select_band.
  rewrite H8, H4. reflexivity.
Qed.

Lemma add_ndvi_inv (image out : Image Q) :
  add_ndvi image = Ok out ->
  exists b8 b4, find_band "B8" image = Some b8 /\ find_band "B4" image = Some b4
                /\ out = image ++ [("NDVI", EE.nd_raster b8 b4)].
Proof.
  intros Hout.
  destruct (find_band "B8" image) as [b8|] eqn:H8.
  - destruct (find_band "B4" image) as [b4|] eqn:H4.
    + rewrite (add_ndvi_Ok _ _ _ H8 H4) in Hout. inversion Hout. eauto.
    + unfold add_ndvi, EE.normalizedDifference, EE.select_band in Hout.
      rewrite H8, H4 in Hout. discriminate.
  - unfold add_ndvi, EE.normalizedDifference, EE.select_band in Hout.
    rewrite H8 in Hout. discriminate.
Qed.

(** C2.  On an image with a near-infrared band B8 and a red band B4,
    [add_ndvi] appends one band, ["NDVI"]; at every pixel where the two
    reflectances NIR and RED are present and NIR + RED is not zero, the
    appended value is (NIR - RED) / (NIR + RED).  Reflectances are
    non-negative; on the images the notebook feeds to [add_ndvi], the
    cloud-masked and rescaled scenes, this holds of every value, so that no
    condition on the sign is left.  For NIR = 0.5 and RED = 0.2 the value is
    3/7, within 1e-4 of 0.4286. *)
Theorem ndvi_is_normalized_difference (image : Image Q) (b8 b4 : raster Q) :
  find_band "B8" image = Some b8 ->
  find_band "B4" image = Some b4 ->
  exists ndvi,
    add_ndvi image = Ok (image ++ [("NDVI", ndvi)]) /\
    (forall (c : coord) (nir red : Q),
        b8 !! c = Some nir -> b4 !! c = Some red ->
        (0 <= nir)%Q -> (0 <= red)%Q -> ~ (nir + red == 0)%Q ->
        ndvi !! c = Some ((nir - red) / (nir + red))%Q) /\
    (forall scene : Image N,
        mask_s2_clouds scene = Ok image ->
        forall (c : coord) (nir red : Q),
          b8 !! c = Some nir -> b4 !! c = Some red -> ~ (nir + red == 0)%Q ->
          ndvi !! c = Some ((nir - red) / (nir + red))%Q) /\
    (forall (c : coord) (nir red : Q),
        b8 !! c = Some nir -> b4 !! c = Some red ->
        (nir == 0.5)%Q -> (red == 0.2)%Q ->
        exists v, ndvi !! c = Some v /\ (v == 3 # 7)%Q
                  /\ (Qabs (v - 0.4286) <= 0.0001)%Q).
Proof.
  intros H8 H4. exists (EE.nd_raster b8 b4).
  assert (Hgen : forall (c : coord) (nir red : Q),
             b8 !! c = Some nir -> b4 !! c = Some red ->
             (0 <= nir)%Q -> (0 <= red)%Q ->
             EE.nd_raster b8 b4 !! c = Some ((nir - red) / (nir + red))%Q).
  { intros c nir red Hn Hr Hn0 Hr0.
    unfold EE.nd_raster. rewrite map_lookup_imap, Hn. cbn [mbind option_bind].
    rewrite Hr. cbn [mbind option_bind]. by apply nd_px_nonneg. }
  split; [by apply add_ndvi_Ok|]. split; [|split].
  - intros c nir red Hn Hr Hn0 Hr0 _. by apply Hgen.
  - intros scene Hscene c nir red Hn Hr _. apply Hgen; try assumption.
    + exact (mask_s2_clouds_nonneg _ _ _ _ _ _ Hscene H8 Hn).
    + exact (mask_s2_clouds_nonneg _ _ _ _ _ _ Hscene H4 Hr).
  - intros c nir red Hn Hr En Er.
    exists ((nir - red) / (nir + red))%Q.
    assert (Hv : ((nir - red) / (nir + red) == 3 # 7)%Q) by (rewrite En, Er; reflexivity).
    split; [|split].
    + apply Hgen; try assumption; [rewrite En | rewrite Er]; discriminate.
    + exact Hv.
    + rewrite Hv. discriminate.
Qed.

Lemma ndvi_is_normalized_difference_witness :
  let image : Image Q := [("B4", {[ (0, 0) := 0.2%Q ]}); ("B8", {[ (0, 0) := 0.5%Q ]})] in
  exists ndvi,
    add_ndvi image = Ok (image ++ [("NDVI", ndvi)]) /\
    ndvi !! (0, 0) = Some ((0.5 - 0.2) / (0.5 + 0.2))%Q /\
    exists v, ndvi !! (0, 0) = Some v /\ (v == 3 # 7)%Q /\ (Qabs (v - 0.4286) <= 0.0001)%Q.
Proof.
  intros image.
  destruct (ndvi_is_normalized_difference image {[ (0, 0) := 0.5%Q ]} {[ (0, 0) := 0.2%Q ]}
              eq_refl eq_refl) as (ndvi & Hadd & Hgen & _ & Hpart).
  exists ndvi. split; [exact Hadd|]. split.
  - apply Hgen; [reflexivity | reflexivity | discriminate | discriminate | discriminate].
  - apply (Hpart (0, 0) 0.5%Q 0.2%Q); reflexivity.
Defined.

(* ===================================================================== *)
(** * Binarisation *)
(* ===================================================================== *)

Lemma gt_px_pos {V} `{Number V} (v : V) : (0 < to_Q v)%Q -> EE.gt_px 0 v = 1.
Proof.
  intros Hv. unfold EE.gt_px. destruct (Qlt_le_dec 0 (to_Q v)) as [_|Hle]; [reflexivity|].
  exfalso. eapply Qlt_not_le; eauto.
Qed.

Lemma gt_px_nonpos {V} `{Number V} (v : V) : (to_Q v <= 0)%Q -> EE.gt_px 0 v = 0.
Proof.
  intros Hv. unfold EE.gt_px. destruct (Qlt_le_dec 0 (to_Q v)) as [Hlt|_]; [|reflexivity].
  exfalso. eapply Qlt_not_le; eauto.
Qed.

Lemma gt_px_binary {V} `{Number V} (k : Q) (v : V) : EE.gt_px k v = 0 \/ EE.gt_px k v = 1.
Proof. unfold EE.gt_px. destruct (Qlt_le_dec k (to_Q v)); auto. Qed.

Lemma gt_px_fixes_binary (z : Z) : z = 0 \/ z = 1 -> EE.gt_px 0 z = z.
Proof.
  intros [->| ->].
  - apply gt_px_nonpos. discriminate.
  - apply gt_px_pos. reflexivity.
Qed.

Lemma binarize_is_binary {V} `{Number V} (img : Image V) : binary (binarize img).
Proof.
  intros b c v Hb Hv. unfold binarize, EE.gt, EE.map_bands in Hb.
  apply list_elem_of_fmap in Hb as (b0 & -> & _). simpl in Hv.
  rewrite lookup_fmap in Hv. destruct (b0.2 !! c) as [w|]; simpl in Hv; [|discriminate].
  inversion Hv. apply gt_px_binary.
Qed.

Lemma binarize_fixes_binary (img : Image Z) : binary img -> binarize img = img.
Proof.
  unfold binarize, EE.gt, EE.map_bands. induction img as [|[n r] img IH]; intros Hbin.
  - reflexivity.
  - rewrite fmap_cons. f_equal.
    + simpl. f_equal. apply map_eq. intros c. rewrite lookup_fmap.
      destruct (r !! c) as [v|] eqn:Hv; simpl; [|reflexivity].
      f_equal. apply gt_px_fixes_binary.
      apply (Hbin (n, r) c v); [constructor | exact Hv].
    + apply IH. intros b c v Hb Hv. apply (Hbin b c v); [by constructor | exact Hv].
Qed.

(** C4.  Binarisation keeps the bands and the valid pixels of the
    edge-strength raster, maps every strictly positive value to 1 and every
    zero or negative value to 0, and its result is an integer raster whose
    values are 0 or 1. *)
Theorem binarize_thresholds_at_zero (edge_strength : Image Q) (name : string) (c : coord) :
  (forall v, value_at edge_strength name c = Some v -> (0 < v)%Q ->
             value_at (binarize edge_strength) name c = Some 1) /\
  (forall v, value_at edge_strength name c = Some v -> (v <= 0)%Q ->
             value_at (binarize edge_strength) name c = Some 0) /\
  (value_at edge_strength name c = None ->
   value_at (binarize edge_strength) name c = None) /\
  bandNames (binarize edge_strength) = bandNames edge_strength /\
  binary (binarize edge_strength).
Proof.
  unfold binarize at 1 2 3, EE.gt. rewrite !value_at_map_bands.
  repeat split.
  - intros v -> Hv. simpl. f_equal. by apply gt_px_pos.
  - intros v -> Hv. simpl. f_equal. by apply gt_px_nonpos.
  - intros ->. reflexivity.
  - unfold binarize, EE.gt, EE.map_bands, bandNames.
    rewrite <- list_fmap_compose. reflexivity.
  - apply binarize_is_binary.
Qed.

Lemma binarize_thresholds_at_zero_witness :
  let edge_strength : Image Q :=
    [("classification", <[(0, 0) := 0.7%Q]> (<[(1, 0) := 0%Q]> {[ (2, 0) := (-0.3)%Q ]}))] in
  value_at (binarize edge_strength) "classification" (0, 0) = Some 1 /\
  value_at (binarize edge_strength) "classification" (1, 0) = Some 0 /\
  value_at (binarize edge_strength) "classification" (2, 0) = Some 0 /\
  value_at (binarize edge_strength) "classification" (3, 0) = None.
Proof.
  intros edge_strength.
  split; [|split; [|split]].
  - apply (proj1 (binarize_thresholds_at_zero edge_strength "classification" (0, 0)) 0.7%Q);
      reflexivity.
  - apply (proj1 (proj2 (binarize_thresholds_at_zero edge_strength "classification" (1, 0)))
             0%Q); [reflexivity | discriminate].
  - apply (proj1 (proj2 (binarize_thresholds_at_zero edge_strength "classification" (2, 0)))
             (-0.3)%Q); [reflexivity | discriminate].
  - apply (proj1 (proj2 (proj2
             (binarize_thresholds_at_zero edge_strength "classification" (3, 0))))).
    reflexivity.
Defined.

(** C5.  Binarisation is idempotent: a raster whose values all lie in
    {0, 1} is returned unchanged, and binarising the result of a
    binarisation gives that result again, whatever the input. *)
Theorem binarize_idempotent :
  (forall x : Image Z, binary x -> binarize x = x) /\
  (forall x : Image Q, binarize (binarize x) = binarize x) /\
  (forall x : Image Z, binarize (binarize x) = binarize x).
Proof.
  split; [exact binarize_fixes_binary|].
  split; intros x; apply binarize_fixes_binary, binarize_is_binary.
Qed.

Lemma binarize_idempotent_witness :
  let x : Image Z := [("classification", <[(0, 0) := 1]> {[ (1, 0) := 0 ]})] in
  binary x /\ binarize x = x.
Proof.
  intros x.
  assert (Hx : binary x).
  { intros b c v Hb Hv. apply list_elem_of_singleton in Hb as ->. simpl in Hv.
    destruct (decide (c = (0, 0))) as [->|H0].
    - rewrite lookup_insert_eq in Hv. inversion Hv. by right.
    - rewrite lookup_insert_ne in Hv by congruence.
      apply lookup_singleton_Some in Hv as [_ <-]. by left. }
  split; [exact Hx | exact (proj1 binarize_idempotent x Hx)].
Defined.

(* ===================================================================== *)
(** * The median composite *)
(* ===================================================================== *)

Section Composite.
Context {P : Platform}.

Lemma gather_lookup {V} (rs : list (raster V)) (c : coord) :
  gather rs !! c
  = match omap (fun r : raster V => r !! c) rs with
    | [] => None
    | l => Some l
    end.
Proof.
  induction rs as [|r rs IH]; [apply lookup_empty|].
  unfold gather in *. cbn [foldr]. rewrite lookup_merge, IH. cbn [omap list_omap].
  destruct (r !! c) as [v|]; destruct (omap (fun r0 : raster V => r0 !! c) rs); reflexivity.
Qed.

Lemma omap_omap {A B C} (f : A -> option B) (g : B -> option C) (l : list A) :
  omap g (omap f l) = omap (fun x => f x ≫= g) l.
Proof.
  induction l as [|x l IH]; [reflexivity|]. cbn [omap list_omap].
  destruct (f x) as [y|]; cbn [omap list_omap mbind option_bind]; [|exact IH].
  destruct (g y); by rewrite IH.
Qed.

Lemma omap_Forall2 {A B C} (R : A -> B -> Prop) (f : A -> option C) (g : B -> option C)
    (l1 : list A) (l2 : list B) :
  Forall2 R l1 l2 -> (forall x y, R x y -> f x = g y) -> omap f l1 = omap g l2.
Proof.
  intros HR Hfg. induction HR as [|x y l1 l2 Hxy _ IH]; [reflexivity|].
  cbn [omap list_omap]. by rewrite (Hfg x y Hxy), IH.
Qed.

Lemma select_find {V} (img out : Image V) (names : list string) (name : string) :
  EE.select img names = Ok out -> name ∈ names ->
  find_band name out = find_band name img /\ is_Some (find_band name img).
Proof.
  unfold EE.select. intros Hsel%traverse_Ok. induction Hsel as [|n b names out Hb _ IH].
  - intros Hin. by apply elem_of_nil in Hin.
  - intros Hin. unfold EE.select_band in Hb.
    destruct (find_band n img) as [r|] eqn:Hr; [|discriminate]. inversion Hb; subst b.
    cbn [find_band]. destruct (decide (n = name)) as [->|Hne].
    + rewrite Hr. eauto.
    + apply IH. apply elem_of_cons in Hin as [->|Hin]; [done | exact Hin].
Qed.

Lemma select_names {V} (img out : Image V) (names : list string) :
  EE.select img names = Ok out -> bandNames out = names.
Proof.
  unfold EE.select. intros Hsel%traverse_Ok. induction Hsel as [|n b names out Hb _ IH].
  - reflexivity.
  - unfold EE.select_band in Hb. destruct (find_band n img); [|discriminate].
    inversion Hb; subst b. unfold bandNames in *. rewrite fmap_cons. simpl. by rewrite IH.
Qed.

Lemma find_band_median (col : list (Image Q)) (name : string) (r : raster Q) :
  find_band name (median col) = Some r ->
  r = median_of <$> gather (omap (find_band name) col).
Proof.
  destruct col as [|first rest]; [discriminate|]. unfold median.
  generalize (first :: rest). intros col.
  induction first as [|[n r0] first IH]; [discriminate|].
  rewrite fmap_cons. cbn [find_band fst snd].
  destruct (decide (n = name)) as [->|Hne]; [|exact IH].
  intros Hr. by inversion Hr.
Qed.

Lemma add_ndvi_keeps (image out : Image Q) (name : string) (c : coord) :
  add_ndvi image = Ok out -> name ≠ "NDVI" ->
  value_at out name c = value_at image name c.
Proof.
  intros (b8 & b4 & _ & _ & ->)%add_ndvi_inv Hne. unfold value_at.
  rewrite find_band_app. destruct (find_band name image); [reflexivity|].
  cbn [find_band]. destruct (decide ("NDVI" = name)); [congruence | reflexivity].
Qed.

Lemma composite_of_inv (col : list Scene) (composite : Image Q) :
  composite_of col = Ok composite ->
  exists masked indexed,
    Forall2 (fun image out => mask_s2_clouds image = Ok out) (pixels <$> col) masked /\
    Forall2 (fun image out => add_ndvi image = Ok out) masked indexed /\
    EE.select (median indexed) FEATURE_BANDS = Ok composite.
Proof.
  unfold composite_of. intros Hc.
  destruct (traverse mask_s2_clouds (pixels <$> col)) as [masked|e] eqn:Hm;
    cbn [mbind result_bind] in Hc; [|discriminate].
  destruct (traverse add_ndvi masked) as [indexed|e] eqn:Hi;
    cbn [mbind result_bind] in Hc; [|discriminate].
  exists masked, indexed. eauto using traverse_Ok.
Qed.

Lemma omap_fmap {A B C} (g : A -> B) (f : B -> option C) (l : list A) :
  omap f (g <$> l) = omap (fun x => f (g x)) l.
Proof.
  induction l as [|x l IH]; [reflexivity|].
  rewrite fmap_cons. cbn [omap list_omap]. by rewrite IH.
Qed.

(** Band by band and pixel by pixel, the composite in terms of the stored
    digital numbers of the scenes. *)
Lemma composite_value (col : list Scene) (composite : Image Q) (b : string) (c : coord) :
  composite_of col = Ok composite -> b ∈ BANDS ->
  value_at composite b c
  = match omap (fun s => contribution (pixels s) b c) col with
    | [] => None
    | vs => Some (median_of vs)
    end.
Proof.
  intros (masked & indexed & Hm & Hi & Hsel)%composite_of_inv Hb.
  assert (Hne : b ≠ "NDVI").
  { intros ->. unfold BANDS in Hb. repeat (apply elem_of_cons in Hb as [Hb|Hb]; [discriminate|]).
    by apply elem_of_nil in Hb. }
  assert (Hin : b ∈ FEATURE_BANDS) by (unfold FEATURE_BANDS; apply elem_of_app; by left).
  destruct (select_find _ _ _ _ Hsel Hin) as [Hfind [r Hr]].
  unfold value_at at 1. rewrite Hfind, Hr. cbn [mbind option_bind].
  rewrite (find_band_median _ _ _ Hr), lookup_fmap, gather_lookup, omap_omap.
  change (fun x : Image Q => find_band b x ≫= fun r0 : raster Q => r0 !! c)
    with (fun x : Image Q => value_at x b c).
  rewrite <- (omap_Forall2 _ (fun m : Image Q => value_at m b c)
                (fun i : Image Q => value_at i b c) _ _ Hi)
    by (intros image out Hout; symmetry; by apply add_ndvi_keeps).
  rewrite <- (omap_Forall2 _ (fun image : Image N => contribution image b c)
                (fun m : Image Q => value_at m b c) _ _ Hm)
    by (intros image out Hout; symmetry; by apply mask_s2_clouds_value).
  rewrite omap_fmap.
  destruct (omap _ col); reflexivity.
Qed.

End Composite.

(* ===================================================================== *)
(** * The script, cell by cell *)
(* ===================================================================== *)

Section Run.
Context {P : Platform}.

Lemma ground_truth_Ok : ground_truth = Ok drawn_polygons.
Proof. reflexivity. Qed.

(** The run written out: which cell can end it, with which exception, after
    which lines. *)
Lemma run_pipeline (cfg : Config) :
  run (pipeline cfg)
  = let n := size (s2_collection cfg) in
    if (n =? 0)%nat
    then (Raise (ValueError "The GEE image collection is empty. Try expanding the date range."),
          take 3 (transcript n))
    else
      match composite_of (s2_collection cfg) with
      | Raise e => (Raise e, take 3 (transcript n))
      | Ok composite =>
          let training := sample composite drawn_polygons in
          match fit training with
          | Raise e => (Raise e, take 5 (transcript n))
          | Ok forest =>
              match classify composite forest with
              | Raise e => (Raise e, take 5 (transcript n))
              | Ok classification =>
                  let edge_strength := detect_edges classification in
                  let binary := binarize edge_strength in
                  match vectorize (aoi cfg) binary with
                  | Raise e => (Raise e, take 6 (transcript n))
                  | Ok boundaries =>
                      (Ok (mkOutputs n composite training forest classification
                             edge_strength binary boundaries
                             (show (aoi cfg) composite classification boundaries)),
                       transcript n)
                  end
              end
          end
      end.
Proof.
  unfold run, pipeline. rewrite ground_truth_Ok.
  cbv beta iota zeta delta [mbind M_bind mret M_ret print raise lift].
  destruct (size (s2_collection cfg) =? 0)%nat; [reflexivity|].
  destruct (composite_of (s2_collection cfg)) as [composite|e]; [|reflexivity].
  destruct (fit (sample composite drawn_polygons)) as [forest|e]; [|reflexivity].
  destruct (classify composite forest) as [classification|e]; [|reflexivity].
  destruct (vectorize (aoi cfg) (binarize (detect_edges classification)));
    reflexivity.
Qed.

(** What a run that completes has gone through. *)
Lemma pipeline_Ok_inv (cfg : Config) (out : Outputs) (log : list string) :
  run (pipeline cfg) = (Ok out, log) ->
  size (s2_collection cfg) ≠ 0%nat /\
  collection_size out = size (s2_collection cfg) /\
  composite_of (s2_collection cfg) = Ok (composite_image out) /\
  training_data out = sample (composite_image out) drawn_polygons /\
  fit (training_data out) = Ok (classifier out) /\
  classify (composite_image out) (classifier out) = Ok (classification_map out) /\
  edges out = detect_edges (classification_map out) /\
  binary_edges out = binarize (edges out) /\
  vectorize (aoi cfg) (binary_edges out) = Ok (field_boundaries out) /\
  Map out = show (aoi cfg) (composite_image out) (classification_map out)
              (field_boundaries out) /\
  log = transcript (size (s2_collection cfg)).
Proof.
  rewrite run_pipeline. cbv zeta.
  destruct (size (s2_collection cfg) =? 0)%nat eqn:Hn; [discriminate|].
  apply Nat.eqb_neq in Hn.
  destruct (composite_of (s2_collection cfg)) as [composite|e]; [|discriminate].
  destruct (fit (sample composite drawn_polygons)) as [forest|e] eqn:Hfit; [|discriminate].
  destruct (classify composite forest) as [classification|e] eqn:Hcls; [|discriminate].
  destruct (vectorize (aoi cfg) (binarize (detect_edges classification)))
    as [boundaries|e] eqn:Hvec; [|discriminate].
  intros Hrun. inversion Hrun; subst. cbn [collection_size composite_image training_data
    classifier classification_map edges binary_edges field_boundaries Map].
  repeat split; assumption || reflexivity.
Qed.

End Run.

(** C1.  Whatever the area, the time window and the cloud ceiling, when no
    scene passes the filters the run ends with the [ValueError] of the
    diagnostic check.  By then only the lines of steps 2 and 3 and the count
    of scenes have been printed: the composite is not built (its own error
    would have been a different exception), no classification is attempted,
    and the run binds no output. *)
Theorem empty_collection_raises_first {P : Platform} (cfg : Config) :
  size (s2_collection cfg) = 0%nat ->
  run (pipeline cfg)
  = (Raise (ValueError "The GEE image collection is empty. Try expanding the date range."),
     [ nl +:+ "Step 2: Configuring project parameters...";
       nl +:+ "Step 3: Preparing Sentinel-2 image and features...";
       "   - Found 0 images for the composite." ])
  /\ (forall out log, run (pipeline cfg) ≠ (Ok out, log))
  /\ composite_of (s2_collection cfg) = Raise (EEException (NoSuchBand "B2")).
Proof.
  intros Hn.
  assert (Hrun : run (pipeline cfg)
                 = (Raise (ValueError "The GEE image collection is empty. Try expanding the date range."),
                    take 3 (transcript 0))).
  { rewrite run_pipeline. cbv zeta. rewrite Hn. reflexivity. }
  split; [exact Hrun|]. split.
  - intros out log. rewrite Hrun. discriminate.
  - unfold size in Hn. apply length_zero_iff_nil in Hn. rewrite Hn. reflexivity.
Qed.

Lemma empty_collection_raises_first_witness :
  let cfg := mkConfig AOI START_DATE END_DATE 2%Q in
  size (s2_collection (P := Demo.demo) cfg) = 0%nat /\
  run (pipeline (P := Demo.demo) cfg)
  = (Raise (ValueError "The GEE image collection is empty. Try expanding the date range."),
     [ nl +:+ "Step 2: Configuring project parameters...";
       nl +:+ "Step 3: Preparing Sentinel-2 image and features...";
       "   - Found 0 images for the composite." ]).
Proof.
  intros cfg. split; [reflexivity|].
  exact (proj1 (empty_collection_raises_first (P := Demo.demo) cfg eq_refl)).
Defined.

(* ===================================================================== *)
(** * Sampling *)
(* ===================================================================== *)

Section Sampling.
Context {P : Platform}.

Lemma sample_pixel_names (img : Image Q) (c : coord) (vals : list (string * prop)) :
  sample_pixel img c = Some vals -> vals.*1 = bandNames img.
Proof.
  unfold sample_pixel. intros Hv%mapM_Some_1.
  induction Hv as [|b kv img vals Hb _ IH]; [reflexivity|].
  unfold bandNames in *. rewrite !fmap_cons, IH. f_equal.
  destruct (b.2 !! c); simplify_eq/=. reflexivity.
Qed.

Lemma copy_properties_lookup (f : Feature) (names : list string) (name : string) :
  name ∈ names -> copy_properties f names !! name = properties f !! name.
Proof.
  intros Hin. unfold copy_properties. rewrite map_lookup_filter.
  destruct (properties f !! name) as [x|]; [|reflexivity].
  cbn [mbind option_bind]. rewrite option_guard_True by exact Hin. reflexivity.
Qed.

(** A property that is copied and is not the name of a band reaches every
    sample of the region as it stands on the region. *)
Lemma samples_of_keeps (img : Image Q) (names : list string) (scale : Q)
    (f s : Feature) (name : string) :
  s ∈ samples_of img names scale f ->
  name ∈ names -> name ∉ bandNames img ->
  properties s !! name = properties f !! name.
Proof.
  unfold samples_of. destruct (geometry f) as [g|]; [|by intros ?%elem_of_nil].
  intros (c & _ & Hs)%list_elem_of_omap Hin Hfresh.
  destruct (sample_pixel img c) as [vals|] eqn:Hvals; [|discriminate].
  cbn [mbind option_bind] in Hs. inversion Hs; subst s; clear Hs. cbn [properties].
  rewrite lookup_union_r.
  - by apply copy_properties_lookup.
  - apply not_elem_of_list_to_map_1. by rewrite (sample_pixel_names _ _ _ Hvals).
Qed.

Lemma drawn_polygons_labels (f : Feature) :
  f ∈ drawn_polygons ->
  properties f !! CLASS_PROPERTY = Some (PInt 1) \/
  properties f !! CLASS_PROPERTY = Some (PInt 0).
Proof.
  unfold drawn_polygons. intros Hf.
  repeat (apply elem_of_cons in Hf as [->|Hf]; [auto|]).
  by apply elem_of_nil in Hf.
Qed.

Lemma landcover_is_no_band (col : list Scene) (composite : Image Q) :
  composite_of col = Ok composite -> CLASS_PROPERTY ∉ bandNames composite.
Proof.
  intros (masked & indexed & _ & _ & Hsel)%composite_of_inv.
  rewrite (select_names _ _ _ Hsel). unfold FEATURE_BANDS, BANDS, CLASS_PROPERTY.
  intros Hin. repeat (apply elem_of_cons in Hin as [Hin|Hin]; [discriminate|]).
  by apply elem_of_nil in Hin.
Qed.

(** Every training sample comes from one of the drawn polygons and carries
    that polygon's class. *)
Lemma training_sample_origin (col : list Scene) (composite : Image Q) (s : Feature) :
  composite_of col = Ok composite ->
  s ∈ sample composite drawn_polygons ->
  exists polygon,
    polygon ∈ drawn_polygons /\
    s ∈ samples_of composite [CLASS_PROPERTY] 10%Q polygon /\
    properties s !! CLASS_PROPERTY = properties polygon !! CLASS_PROPERTY.
Proof.
  intros Hc Hs. unfold sample, sampleRegions in Hs.
  apply list_elem_of_bind in Hs as (polygon & Hs & Hp).
  exists polygon. split; [exact Hp|]. split; [exact Hs|].
  eapply samples_of_keeps; [exact Hs | by constructor | by eapply landcover_is_no_band].
Qed.

End Sampling.

(** C6.  In a run that completes, the training data are exactly the samples
    of the four drawn polygons, and every sample drawn from a polygon
    carries, under ['landcover'], the class value of that polygon as it
    stands on the polygon (1 for the two field polygons, 0 for the two
    others). *)
Theorem sampling_preserves_labels {P : Platform} (cfg : Config) (out : Outputs)
    (log : list string) :
  run (pipeline cfg) = (Ok out, log) ->
  ground_truth = Ok drawn_polygons /\
  training_data out
  = drawn_polygons ≫= samples_of (composite_image out) [CLASS_PROPERTY] 10%Q /\
  forall polygon s,
    polygon ∈ drawn_polygons ->
    s ∈ samples_of (composite_image out) [CLASS_PROPERTY] 10%Q polygon ->
    properties s !! "landcover" = properties polygon !! "landcover" /\
    (properties s !! "landcover" = Some (PInt 1) \/
     properties s !! "landcover" = Some (PInt 0)).
Proof.
  intros (_ & _ & Hc & Ht & _)%pipeline_Ok_inv.
  split; [reflexivity|]. split; [exact Ht|].
  intros polygon s Hp Hs.
  assert (Hkeep : properties s !! CLASS_PROPERTY = properties polygon !! CLASS_PROPERTY).
  { eapply samples_of_keeps; [exact Hs | by constructor | by eapply landcover_is_no_band]. }
  split; [exact Hkeep|].
  change "landcover" with CLASS_PROPERTY. rewrite Hkeep. by apply drawn_polygons_labels.
Qed.

Lemma demo_run :
  run (pipeline (P := Demo.demo) notebook_config) = (Ok Demo.demo_outputs, transcript 2).
Proof. vm_cast_no_check (eq_refl (Ok Demo.demo_outputs, transcript 2)). Qed.

Lemma sampling_preserves_labels_witness :
  run (pipeline (P := Demo.demo) notebook_config) = (Ok Demo.demo_outputs, transcript 2) /\
  training_data Demo.demo_outputs
  = drawn_polygons
      ≫= samples_of (P := Demo.demo) (composite_image Demo.demo_outputs) [CLASS_PROPERTY] 10%Q /\
  forall polygon s,
    polygon ∈ drawn_polygons ->
    s ∈ samples_of (P := Demo.demo) (composite_image Demo.demo_outputs)
          [CLASS_PROPERTY] 10%Q polygon ->
    properties s !! "landcover" = properties polygon !! "landcover" /\
    (properties s !! "landcover" = Some (PInt 1) \/
     properties s !! "landcover" = Some (PInt 0)).
Proof.
  split; [exact demo_run|].
  exact (proj2 (sampling_preserves_labels (P := Demo.demo) notebook_config
                  Demo.demo_outputs _ demo_run)).
Defined.

(* ===================================================================== *)
(** * Training and classification *)
(* ===================================================================== *)

Section Forest.
Context {P : Platform}.

Lemma plurality_from_in (best : Z) (cands votes : list Z) :
  plurality_from best cands votes ∈ best :: cands.
Proof.
  revert best. induction cands as [|z cands IH]; intros best; cbn [plurality_from].
  - constructor.
  - specialize (IH (if (tally best votes <? tally z votes)%nat then z else best)).
    apply elem_of_cons in IH as [Heq|Hin].
    + rewrite Heq. destruct (tally best votes <? tally z votes)%nat.
      * apply list_elem_of_further. constructor.
      * constructor.
    + by do 2 apply list_elem_of_further.
Qed.

Lemma plurality_in (votes : list Z) : votes ≠ [] -> plurality votes ∈ votes.
Proof.
  destruct votes as [|z votes]; [done|]. intros _. apply plurality_from_in.
Qed.

Lemma fit_inv (training : list Feature) (clf : Classifier) :
  fit training = Ok clf ->
  rows_of CLASS_PROPERTY FEATURE_BANDS training ≠ [] /\
  clf = mkClassifier
          ((fun i => grow i (rows_of CLASS_PROPERTY FEATURE_BANDS training)) <$> seq 0 20)
          CLASS_PROPERTY FEATURE_BANDS.
Proof.
  unfold fit, train, smileRandomForest. cbn [numberOfTrees].
  destruct (rows_of CLASS_PROPERTY FEATURE_BANDS training) as [|row rows]; [discriminate|].
  intros Hclf. inversion Hclf. split; [discriminate | reflexivity].
Qed.

Lemma rows_of_origin (cls : string) (inputs : list string) (features : list Feature)
    (row : list Q * Z) :
  row ∈ rows_of cls inputs features ->
  exists s, s ∈ features /\
            mapM (fun n => properties s !! n ≫= prop_Q) inputs = Some row.1 /\
            properties s !! cls ≫= prop_Z = Some row.2.
Proof.
  unfold rows_of. intros (s & Hs & Hrow)%list_elem_of_omap. exists s. split; [exact Hs|].
  unfold row_of in Hrow.
  destruct (mapM _ inputs) as [x|]; [|discriminate]. cbn [mbind option_bind] in Hrow.
  destruct (properties s !! cls ≫= prop_Z) as [y|]; [|discriminate].
  cbn [mbind option_bind] in Hrow. by inversion Hrow.
Qed.

Lemma classify_inv (composite : Image Q) (clf : Classifier) (cm : Image Z) :
  classify composite clf = Ok cm ->
  exists b0 rest,
    EE.select composite (inputProperties clf) = Ok (b0 :: rest) /\
    cm = [("classification",
           map_imap (fun c (_ : Q) =>
                       x ← mapM (fun b : string * raster Q => b.2 !! c) (b0 :: rest);
                       Some (classify_px clf x)) b0.2)].
Proof.
  unfold classify.
  destruct (EE.select composite (inputProperties clf)) as [[|b0 rest]|e];
    cbn [mbind result_bind]; try discriminate.
  intros Hcm. inversion Hcm. eauto.
Qed.

Lemma classified_value (composite : Image Q) (clf : Classifier) (cm : Image Z)
    (name : string) (c : coord) (v : Z) :
  classify composite clf = Ok cm ->
  value_at cm name c = Some v ->
  name = "classification" /\ exists x, v = classify_px clf x.
Proof.
  intros (b0 & rest & _ & ->)%classify_inv. unfold value_at. cbn [find_band].
  destruct (decide ("classification" = name)) as [<-|Hne]; [|discriminate].
  cbn [mbind option_bind]. rewrite map_lookup_imap.
  destruct (b0.2 !! c); [|discriminate]. cbn [mbind option_bind].
  destruct (mapM _ (b0 :: rest)) as [x|]; [|discriminate]. cbn [mbind option_bind].
  intros Hv. inversion Hv. eauto.
Qed.

Lemma selected_valid (composite : Image Q) (names : list string)
    (bands : list (string * raster Q)) (c : coord) :
  EE.select composite names = Ok bands ->
  (Forall (fun b : string * raster Q => is_Some (b.2 !! c)) bands
   <-> forall n, n ∈ names -> is_Some (value_at composite n c)).
Proof.
  unfold EE.select. intros Hsel%traverse_Ok.
  induction Hsel as [|n b names bands Hb _ IH].
  - split; [intros _ n Hn; by apply elem_of_nil in Hn | constructor].
  - unfold EE.select_band in Hb.
    destruct (find_band n composite) as [r|] eqn:Hr; [|discriminate].
    inversion Hb; subst b; clear Hb.
    assert (Hv : value_at composite n c = r !! c) by (unfold value_at; by rewrite Hr).
    rewrite Forall_cons, IH. cbn [snd]. rewrite <- Hv. split.
    + intros [H0 Hrest] m [->|Hm]%elem_of_cons; auto.
    + intros Hall. split; [apply Hall; constructor|].
      intros m Hm. apply Hall. by constructor.
Qed.

Lemma classified_where (composite : Image Q) (clf : Classifier) (cm : Image Z) (c : coord) :
  classify composite clf = Ok cm ->
  (is_Some (value_at cm "classification" c)
   <-> forall n, n ∈ inputProperties clf -> is_Some (value_at composite n c)).
Proof.
  intros (b0 & rest & Hsel & ->)%classify_inv.
  rewrite <- (selected_valid _ _ _ c Hsel).
  unfold value_at. cbn [find_band]. destruct (decide ("classification" = "classification")); [|done].
  cbn [mbind option_bind]. rewrite map_lookup_imap.
  split.
  - intros [v Hv]. destruct (b0.2 !! c); [|discriminate]. cbn [mbind option_bind] in Hv.
    destruct (mapM _ (b0 :: rest)) as [x|] eqn:Hx; [|discriminate].
    assert (Hs : is_Some (mapM (fun b : string * raster Q => b.2 !! c) (b0 :: rest)))
      by (rewrite Hx; eauto).
    apply mapM_is_Some_1 in Hs. exact Hs.
  - intros Hall. pose proof (Forall_inv Hall) as [q Hq]. cbn beta in Hq.
    apply (mapM_is_Some_2 (fun b : string * raster Q => b.2 !! c)) in Hall as [x Hx].
    rewrite Hq. cbn [mbind option_bind]. rewrite Hx. cbn [mbind option_bind]. eauto.
Qed.

End Forest.

(** The single-leaf trees of the demonstration platform answer with a class
    of the training rows. *)
Lemma demo_leaf_classes (i : nat) (rows : list (list Q * Z)) (x : list Q) :
  rows ≠ [] ->
  predict (Platform := Demo.demo) (grow (Platform := Demo.demo) i rows) x ∈ rows.*2.
Proof.
  intros Hrows. cbn [predict grow Demo.demo]. unfold Demo.demo_grow.
  apply list_elem_of_In, nth_In. rewrite length_fmap.
  apply Nat.mod_upper_bound. by destruct rows.
Qed.

(** C7.  In a run that completes, the classifier is a forest of exactly 20
    trees, each grown on the rows made from the training samples: the
    predictors of a row are the sample's values of the four reflectance
    bands and of the vegetation index, its target is the sample's
    ['landcover'] value (0 or 1, the class of the polygon it was drawn
    from).  Provided a tree only answers with classes of its training rows,
    the classification has one band, every valid pixel of it is 0 or 1, and
    a pixel is valid exactly where the five feature bands of the composite
    are. *)
Theorem forest_of_twenty_trees {P : Platform}
    (leaf_classes : forall (i : nat) (rows : list (list Q * Z)) (x : list Q),
        rows ≠ [] -> predict (grow i rows) x ∈ rows.*2)
    (cfg : Config) (out : Outputs) (log : list string) :
  run (pipeline cfg) = (Ok out, log) ->
  let rows := rows_of "landcover" ["B2"; "B3"; "B4"; "B8"; "NDVI"] (training_data out) in
  trees (classifier out) = (fun i => grow i rows) <$> seq 0 20 /\
  length (trees (classifier out)) = 20%nat /\
  inputProperties (classifier out) = ["B2"; "B3"; "B4"; "B8"; "NDVI"] /\
  classProperty (classifier out) = "landcover" /\
  (forall row, row ∈ rows ->
     exists s polygon,
       s ∈ training_data out /\ polygon ∈ drawn_polygons /\
       s ∈ samples_of (composite_image out) [CLASS_PROPERTY] 10%Q polygon /\
       mapM (fun n => properties s !! n ≫= prop_Q) ["B2"; "B3"; "B4"; "B8"; "NDVI"]
       = Some row.1 /\
       label_of s = Some row.2 /\ label_of polygon = Some row.2 /\
       (row.2 = 0 \/ row.2 = 1)) /\
  classify (composite_image out) (classifier out) = Ok (classification_map out) /\
  bandNames (classification_map out) = ["classification"] /\
  (forall name c v, value_at (classification_map out) name c = Some v -> v = 0 \/ v = 1) /\
  (forall c, is_Some (value_at (classification_map out) "classification" c)
             <-> forall b, b ∈ FEATURE_BANDS -> is_Some (value_at (composite_image out) b c)).
Proof.
  intros (_ & _ & Hc & Ht & Hfit & Hcls & _)%pipeline_Ok_inv rows.
  change ["B2"; "B3"; "B4"; "B8"; "NDVI"] with FEATURE_BANDS in *.
  change "landcover" with CLASS_PROPERTY in *.
  destruct (fit_inv _ _ Hfit) as [Hrows Hclf]. fold rows in Hrows, Hclf.
  assert (Hlabels : forall row, row ∈ rows ->
     exists s polygon,
       s ∈ training_data out /\ polygon ∈ drawn_polygons /\
       s ∈ samples_of (composite_image out) [CLASS_PROPERTY] 10%Q polygon /\
       mapM (fun n => properties s !! n ≫= prop_Q) FEATURE_BANDS = Some row.1 /\
       label_of s = Some row.2 /\ label_of polygon = Some row.2 /\
       (row.2 = 0 \/ row.2 = 1)).
  { intros row (s & Hs & Hx & Hy)%rows_of_origin.
    pose proof Hs as Hs'. rewrite Ht in Hs'.
    destruct (training_sample_origin _ _ _ Hc Hs') as (polygon & Hp & Hsp & Hkeep).
    exists s, polygon. unfold label_of. rewrite <- Hkeep.
    repeat split; try assumption.
    rewrite Hkeep in Hy.
    destruct (drawn_polygons_labels _ Hp) as [Hl|Hl]; rewrite Hl in Hy;
      inversion Hy; auto. }
  assert (Hvotes : forall x, classify_px (classifier out) x = 0
                             \/ classify_px (classifier out) x = 1).
  { intros x. unfold classify_px.
    assert (Hin : plurality ((fun t => predict t x) <$> trees (classifier out))
                  ∈ (fun t => predict t x) <$> trees (classifier out)).
    { apply plurality_in. rewrite Hclf. discriminate. }
    apply list_elem_of_fmap in Hin as (t & -> & Ht').
    rewrite Hclf in Ht'. cbn [trees] in Ht'.
    apply list_elem_of_fmap in Ht' as (i & -> & _).
    pose proof (leaf_classes i rows x Hrows) as Hleaf.
    apply list_elem_of_fmap in Hleaf as (row & -> & Hrow).
    destruct (Hlabels row Hrow) as (_ & _ & _ & _ & _ & _ & _ & _ & H01). exact H01. }
  split; [by rewrite Hclf|]. split; [by rewrite Hclf|].
  split; [by rewrite Hclf|]. split; [by rewrite Hclf|].
  split; [exact Hlabels|]. split; [exact Hcls|]. split; [|split].
  - apply classify_inv in Hcls as (b0 & rest & _ & ->). reflexivity.
  - intros name c v Hv.
    destruct (classified_value _ _ _ _ _ _ Hcls Hv) as [_ [x ->]]. apply Hvotes.
  - intros c. rewrite (classified_where _ _ _ c Hcls). by rewrite Hclf.
Qed.

Lemma forest_of_twenty_trees_witness :
  run (pipeline (P := Demo.demo) notebook_config) = (Ok Demo.demo_outputs, transcript 2) /\
  length (trees (classifier Demo.demo_outputs)) = 20%nat /\
  inputProperties (classifier Demo.demo_outputs) = ["B2"; "B3"; "B4"; "B8"; "NDVI"] /\
  classProperty (classifier Demo.demo_outputs) = "landcover" /\
  bandNames (classification_map Demo.demo_outputs) = ["classification"] /\
  (forall name c v, value_at (classification_map Demo.demo_outputs) name c = Some v ->
                    v = 0 \/ v = 1).
Proof.
  split; [exact demo_run|].
  pose proof (forest_of_twenty_trees (P := Demo.demo) demo_leaf_classes notebook_config
                Demo.demo_outputs _ demo_run) as Hforest.
  cbv zeta in Hforest.
  destruct Hforest as (_ & Hn & Hin & Hcp & _ & _ & Hb & H01 & _).
  repeat split; assumption.
Defined.

(* ===================================================================== *)
(** * Vectorisation *)
(* ===================================================================== *)

Section Vectors.
Context {P : Platform}.

Lemma adjacent_eight (p q : coord) :
  adjacent true p q = true
  <-> p ≠ q /\ Z.abs (p.1 - q.1) <= 1 /\ Z.abs (p.2 - q.2) <= 1.
Proof.
  destruct p as [x y], q as [x' y']. unfold adjacent. cbn [fst snd].
  rewrite Z.eqb_eq. split.
  - intros Hmax. split; [|lia]. intros [= -> ->]. lia.
  - intros (Hne & Hx & Hy).
    destruct (decide (x = x')) as [->|Hx']; [|lia].
    destruct (decide (y = y')) as [->|Hy']; [congruence | lia].
Qed.

Lemma adjacent_four (p q : coord) :
  adjacent false p q = true <-> Z.abs (p.1 - q.1) + Z.abs (p.2 - q.2) = 1.
Proof. unfold adjacent. apply Z.eqb_eq. Qed.

Lemma reduceToVectors_inv (img : Image Z) (scale : Q) (g : Geometry) (eight : bool)
    (labelProperty : string) (reducer : Reducer) (fc : list Feature) :
  reduceToVectors img scale g eight labelProperty reducer = Ok fc ->
  exists name r rest,
    img = (name, r) :: rest /\
    fc = (fun cells =>
            mkFeature (Some (Traced scale g cells))
                      (match region_label r cells with
                       | Some v => <[labelProperty := PInt v]> (reduce_region reducer cells)
                       | None => reduce_region reducer cells
                       end))
         <$> components (adjacent eight) scale g r.
Proof.
  unfold reduceToVectors. destruct img as [|[name r] rest]; [discriminate|].
  intros Hfc. inversion Hfc. eauto.
Qed.

End Vectors.

(** C8.  In a run that completes, the boundaries are the regions into which
    the platform groups the pixels of the binarised (integer, 0/1) edge
    raster under 8-connectivity (two pixels are neighbours when they differ
    by at most one step in each direction), traced inside the area of
    interest at 10 units per pixel, which is also the scale at which the
    training samples were drawn; each region carries the count of its pixels
    as computed by the counting reducer. *)
Theorem boundaries_are_eight_connected_regions {P : Platform}
    (cfg : Config) (out : Outputs) (log : list string) :
  run (pipeline cfg) = (Ok out, log) ->
  exists (scale : Q) (name : string) (r : raster Z) (rest : Image Z),
    scale = 10%Q /\
    training_data out
    = sampleRegions (composite_image out) drawn_polygons [CLASS_PROPERTY] scale 4 /\
    reduceToVectors (binary_edges out) scale (aoi cfg) true "label" countEvery
    = Ok (field_boundaries out) /\
    binary_edges out = (name, r) :: rest /\
    binary (binary_edges out) /\
    (forall p q : coord,
        adjacent true p q = true
        <-> p ≠ q /\ Z.abs (p.1 - q.1) <= 1 /\ Z.abs (p.2 - q.2) <= 1) /\
    (forall f, f ∈ field_boundaries out <->
       exists cells,
         cells ∈ components (adjacent true) scale (aoi cfg) r /\
         f = mkFeature (Some (Traced scale (aoi cfg) cells))
               (match region_label r cells with
                | Some v => <["label" := PInt v]> (reduce_region countEvery cells)
                | None => reduce_region countEvery cells
                end)) /\
    (forall f, f ∈ field_boundaries out ->
       exists cells,
         cells ∈ components (adjacent true) scale (aoi cfg) r /\
         geometry f = Some (Traced scale (aoi cfg) cells) /\
         properties f !! "count" = Some (PInt (Z.of_nat (length cells)))).
Proof.
  intros (_ & _ & _ & Ht & _ & _ & _ & Hbin & Hvec & _)%pipeline_Ok_inv.
  unfold vectorize in Hvec.
  destruct (reduceToVectors_inv _ _ _ _ _ _ _ Hvec) as (name & r & rest & Himg & Hfc).
  exists 10%Q, name, r, rest.
  split; [reflexivity|]. split; [exact Ht|]. split; [exact Hvec|]. split; [exact Himg|].
  split; [rewrite Hbin; apply binarize_is_binary|].
  split; [exact adjacent_eight|]. split.
  - intros f. rewrite Hfc, list_elem_of_fmap. split.
    + intros (cells & -> & Hcells). eauto.
    + intros (cells & Hcells & ->). eauto.
  - intros f Hf. rewrite Hfc in Hf. apply list_elem_of_fmap in Hf as (cells & -> & Hcells).
    exists cells. split; [exact Hcells|]. split; [reflexivity|]. cbn [properties reduce_region].
    destruct (region_label r cells).
    + rewrite lookup_insert_ne by discriminate. apply lookup_singleton_eq.
    + apply lookup_singleton_eq.
Qed.

Lemma boundaries_are_eight_connected_regions_witness :
  run (pipeline (P := Demo.demo) notebook_config) = (Ok Demo.demo_outputs, transcript 2) /\
  exists (scale : Q) (name : string) (r : raster Z) (rest : Image Z),
    scale = 10%Q /\
    training_data Demo.demo_outputs
    = sampleRegions (P := Demo.demo) (composite_image Demo.demo_outputs) drawn_polygons
        [CLASS_PROPERTY] scale 4 /\
    reduceToVectors (P := Demo.demo) (binary_edges Demo.demo_outputs) scale AOI true "label"
      countEvery
    = Ok (field_boundaries Demo.demo_outputs) /\
    binary_edges Demo.demo_outputs = (name, r) :: rest /\
    binary (binary_edges Demo.demo_outputs).
Proof.
  split; [exact demo_run|].
  destruct (boundaries_are_eight_connected_regions (P := Demo.demo) notebook_config
              Demo.demo_outputs _ demo_run)
    as (scale & name & r & rest & Hs & Ht & Hv & Hb & Hbin & _).
  exists scale, name, r, rest. repeat split; assumption.
Defined.

(* ===================================================================== *)
(** * Rescaling inside the cloud mask *)
(* ===================================================================== *)

Lemma Forall2_elem_of_l {A B} (R : A -> B -> Prop) (l : list A) (k : list B) (x : A) :
  Forall2 R l k -> x ∈ l -> exists y, y ∈ k /\ R x y.
Proof.
  intros HR. induction HR as [|a b l k Hab _ IH]; [by intros ?%elem_of_nil|].
  intros [->|Hx]%elem_of_cons.
  - exists b. split; [constructor | exact Hab].
  - destruct (IH Hx) as (y & Hy & HRy). exists y. split; [by constructor | exact HRy].
Qed.

Lemma mask_s2_clouds_names (image : Image N) (out : Image Q) :
  mask_s2_clouds image = Ok out -> bandNames out = bandNames image.
Proof.
  destruct (find_band "QA60" image) as [rqa|] eqn:Hqa.
  - rewrite (mask_s2_clouds_Ok _ _ Hqa). intros [= <-].
    unfold EE.divide, EE.map_bands, bandNames. rewrite <- !list_fmap_compose. reflexivity.
  - rewrite (mask_s2_clouds_Raise _ Hqa). discriminate.
Qed.

(** C10.  Whenever the composite is built, every scene has gone through a
    cloud mask that, besides masking, divides every value of every band by
    10000; each reflectance band (B2, B3, B4, B8) of the composite is then,
    pixel by pixel, the median of these rescaled values over the scenes with
    a clear-sky value there, not of the stored digital numbers.  The
    rescaling sends the nominal range 0..10000 of the stored numbers onto
    [0, 1]. *)
Theorem composite_is_median_of_rescaled {P : Platform}
    (col : list Scene) (composite : Image Q) :
  composite_of col = Ok composite ->
  (forall s, s ∈ col ->
     exists scaled,
       mask_s2_clouds (pixels s) = Ok scaled /\
       bandNames scaled = bandNames (pixels s) /\
       forall name c,
         value_at scaled name c
         = (qa ← value_at (pixels s) "QA60" c;
            v ← value_at (pixels s) name c;
            if clear_sky qa then Some (to_Q v / 10000)%Q else None)) /\
  (forall b c, b ∈ BANDS ->
     value_at composite b c
     = match omap (fun s => contribution (pixels s) b c) col with
       | [] => None
       | vs => Some (median_of vs)
       end) /\
  (forall dn : N, (dn <= 10000)%N -> (0 <= rescaled dn <= 1)%Q).
Proof.
  intros Hc. split; [|split].
  - intros s Hs.
    destruct (composite_of_inv _ _ Hc) as (masked & indexed & Hm & _ & _).
    assert (Hin : pixels s ∈ pixels <$> col) by (apply list_elem_of_fmap; eauto).
    destruct (Forall2_elem_of_l _ _ _ _ Hm Hin) as (scaled & _ & Hscaled).
    exists scaled. split; [exact Hscaled|]. split; [by apply mask_s2_clouds_names|].
    intros name c. apply (mask_s2_clouds_value _ _ _ _ Hscaled).
  - intros b c Hb. by apply composite_value.
  - exact rescaled_range.
Qed.

Lemma demo_composite :
  composite_of (P := Demo.demo) [Demo.july_05; Demo.july_15]
  = Ok (composite_image Demo.demo_outputs).
Proof. vm_cast_no_check (eq_refl (Ok (composite_image Demo.demo_outputs))). Qed.

Lemma composite_is_median_of_rescaled_witness :
  composite_of (P := Demo.demo) [Demo.july_05; Demo.july_15]
  = Ok (composite_image Demo.demo_outputs) /\
  value_at (composite_image Demo.demo_outputs) "B8" (0, 0)
  = Some (Demo.demo_median [rescaled 3000; rescaled 5000]) /\
  value_at (composite_image Demo.demo_outputs) "B8" (1, 1) = Some (rescaled 1750) /\
  (0 <= rescaled 3000 <= 1)%Q.
Proof.
  split; [exact demo_composite|].
  destruct (composite_is_median_of_rescaled (P := Demo.demo) _ _ demo_composite)
    as (_ & Hmedian & Hrange).
  split; [|split].
  - rewrite (Hmedian "B8" (0, 0)); [reflexivity|].
    unfold BANDS. do 3 apply list_elem_of_further. constructor.
  - rewrite (Hmedian "B8" (1, 1)); [reflexivity|].
    unfold BANDS. do 3 apply list_elem_of_further. constructor.
  - apply Hrange. lia.
Defined.

(* ===================================================================== *)
(** * When the run completes *)
(* ===================================================================== *)

(** Membership in a list of literals. *)
Ltac by_membership :=
  repeat first [ apply list_elem_of_here | apply list_elem_of_further ].

Section Completion.
Context {P : Platform}.


Lemma find_band_is_Some {V} (name : string) (img : Image V) :
  name ∈ bandNames img -> is_Some (find_band name img).
Proof.
  destruct (find_band name img) eqn:E; [eauto|]. intros Hin. exfalso.
  induction img as [|[n r] img IH]; [by apply elem_of_nil in Hin|].
  cbn [find_band] in E. destruct (decide (n = name)) as [->|Hne]; [discriminate|].
  unfold bandNames in Hin. rewrite fmap_cons in Hin.
  apply elem_of_cons in Hin as [Hin|Hin]; [cbn in Hin; congruence | by apply IH].
Qed.





End Completion.

(* ===================================================================== *)
(** * Further properties of the script *)
(* ===================================================================== *)

(** X1.  The ground truth is a list of exactly four labelled polygons, two
    with class 1 (Field) and two with class 0 (Non-Field). *)
Theorem ground_truth_census :
  exists truth,
    ground_truth = Ok truth /\
    length truth = 4%nat /\
    length (filter (fun f => label_of f = Some 1) truth) = 2%nat /\
    length (filter (fun f => label_of f = Some 0) truth) = 2%nat /\
    (class_value "Field" = Ok 1 /\ class_value "Non-Field" = Ok 0).
Proof. exists drawn_polygons. repeat split; reflexivity. Qed.

(** X2.  The scenes that enter the composite are exactly the scenes of the
    Sentinel-2 surface-reflectance catalogue that intersect the area of
    interest, were taken from the start date on and before the end date
    (the end date itself is excluded), and whose cloudy-pixel percentage is
    present and strictly below the ceiling; the notebook's own settings are
    the rectangle [5.3, 52.4, 5.7, 52.6], 2022-07-01, 2022-07-31 and 10. *)
Theorem scene_selection {P : Platform} (cfg : Config) (s : Scene) :
  (s ∈ s2_collection cfg <->
   s ∈ catalog "COPERNICUS/S2_SR_HARMONIZED" /\
   intersects (footprint s) (aoi cfg) = true /\
   date_millis (start_date cfg) <= time_start s < date_millis (end_date cfg) /\
   exists v, metadata s !! "CLOUDY_PIXEL_PERCENTAGE" ≫= prop_Q = Some v
             /\ (v < cloud_ceiling cfg)%Q) /\
  notebook = pipeline (mkConfig (Rectangle [5.3; 52.4; 5.7; 52.6]%Q)
                                "2022-07-01" "2022-07-31" 10%Q).
Proof.
  split; [|reflexivity].
  unfold s2_collection, filter_lt, filterDate, filterBounds, ImageCollection.
  rewrite !list_elem_of_In, !filter_In, andb_true_iff, Z.leb_le, Z.ltb_lt.
  split.
  - intros (((Hs & Hb) & Hd) & Hc). repeat split; try tauto.
    destruct (metadata s !! "CLOUDY_PIXEL_PERCENTAGE" ≫= prop_Q) as [v|]; [|discriminate].
    exists v. split; [reflexivity|].
    apply negb_true_iff in Hc. apply Qnot_le_lt. intros Hle.
    apply Qle_bool_iff in Hle. congruence.
  - intros (Hs & Hb & Hd & v & Hv & Hlt). repeat split; try tauto.
    rewrite Hv. apply negb_true_iff. destruct (Qle_bool (cloud_ceiling cfg) v) eqn:E; [|done].
    apply Qle_bool_iff in E. exfalso. eapply Qlt_not_le; eauto.
Qed.







(* ===================================================================== *)
(** * What is printed *)
(* ===================================================================== *)


(* ===================================================================== *)
(** * More on the cloud mask and the vegetation index *)
(* ===================================================================== *)

Lemma clear_sky_land (qa : N) : clear_sky qa = true <-> N.land qa 3072 = 0%N.
Proof.
  change 3072%N with (N.lor (N.shiftl 1 10) (N.shiftl 1 11)).
  rewrite N.land_lor_distr_r, N.lor_eq_0_iff, !land_bit_zero.
  unfold clear_sky. rewrite andb_true_iff, !negb_true_iff. reflexivity.
Qed.

Lemma contribution_nonneg (image : Image N) (name : string) (c : coord) (v : Q) :
  contribution image name c = Some v -> (0 <= v)%Q.
Proof.
  unfold contribution.
  destruct (value_at image "QA60" c) as [qa|]; [|discriminate].
  destruct (value_at image name c) as [dn|]; [|discriminate].
  cbn [mbind option_bind]. destruct (clear_sky qa); [|discriminate].
  intros [= <-]. apply rescaled_nonneg.
Qed.

(** X6.  [mask_s2_clouds] succeeds exactly on the images that have a
    ["QA60"] band and raises the platform's missing-band error on the others.
    When it succeeds it keeps the bands and their order, and it never
    unmasks or invents a value: a valid output pixel is the rescaled value
    of a valid input pixel whose quality word is valid too. *)
Theorem cloud_mask_needs_quality_band (image : Image N) :
  ("QA60" ∉ bandNames image ->
   mask_s2_clouds image = Raise (EEException (NoSuchBand "QA60"))) /\
  ("QA60" ∈ bandNames image -> exists out, mask_s2_clouds image = Ok out) /\
  (forall out, mask_s2_clouds image = Ok out ->
     bandNames out = bandNames image /\
     forall name c v,
       value_at out name c = Some v ->
       exists dn qa, value_at image name c = Some dn /\
                     value_at image "QA60" c = Some qa /\
                     v = rescaled dn).
Proof.
  split; [|split].
  - intros Hno. apply mask_s2_clouds_Raise. by apply find_band_None.
  - intros Hin. destruct (find_band_is_Some _ _ Hin) as [rqa Hqa].
    eexists. apply (mask_s2_clouds_Ok _ _ Hqa).
  - intros out Hout. split; [by apply mask_s2_clouds_names|].
    intros name c v Hv. rewrite (mask_s2_clouds_value _ _ _ _ Hout) in Hv.
    unfold contribution in Hv.
    destruct (value_at image "QA60" c) as [qa|]; [|discriminate].
    destruct (value_at image name c) as [dn|]; [|discriminate].
    cbn [mbind option_bind] in Hv. destruct (clear_sky qa); [|discriminate].
    inversion Hv. eauto.
Qed.

(** X7.  The two flag tests of the cloud mask amount to one test of the
    quality word against the combined mask 3072 (bits 10 and 11): a valid
    pixel is kept exactly when [qa & 3072] is zero, so no other bit of the
    word can exclude or rescue a pixel. *)
Theorem cloud_mask_tests_combined_flags (image : Image N) (out : Image Q)
    (name : string) (c : coord) (qa dn : N) :
  mask_s2_clouds image = Ok out ->
  value_at image "QA60" c = Some qa ->
  value_at image name c = Some dn ->
  (value_at out name c = Some (rescaled dn) <-> N.land qa 3072 = 0%N) /\
  (value_at out name c = None <-> N.land qa 3072 ≠ 0%N) /\
  (forall qa', N.land qa' 3072 = N.land qa 3072 -> clear_sky qa' = clear_sky qa).
Proof.
  intros Hout Hqa Hdn.
  rewrite (mask_s2_clouds_value _ _ _ _ Hout). unfold contribution.
  rewrite Hqa, Hdn. cbn [mbind option_bind].
  pose proof (clear_sky_land qa) as Hland.
  split; [|split].
  - destruct (clear_sky qa); split; intros; try discriminate; try reflexivity.
    + by apply Hland.
    + exfalso. pose proof (proj2 Hland ltac:(assumption)). discriminate.
  - destruct (clear_sky qa); split; intros H; try discriminate; try reflexivity.
    + exfalso. apply H. by apply Hland.
    + intros Hz. apply Hland in Hz. discriminate.
  - intros qa' Heq. pose proof (clear_sky_land qa') as Hland'. rewrite Heq in Hland'.
    destruct (clear_sky qa), (clear_sky qa'); try reflexivity.
    + exact (proj2 Hland' (proj1 Hland eq_refl)).
    + symmetry. exact (proj2 Hland (proj1 Hland' eq_refl)).
Qed.

Lemma cloud_mask_tests_combined_flags_witness :
  exists out,
    mask_s2_clouds (pixels Demo.july_05) = Ok out /\
    value_at out "B8" (1, 1) = None /\
    value_at out "B8" (0, 0) = Some (rescaled 3000).
Proof.
  destruct (mask_s2_clouds (pixels Demo.july_05)) as [out|e] eqn:Hout;
    [|discriminate Hout].
  exists out. split; [reflexivity|]. split.
  - apply (proj1 (proj2 (cloud_mask_tests_combined_flags _ _ "B8" (1, 1) 1024%N 1700%N
                            Hout eq_refl eq_refl))).
    discriminate.
  - apply (proj1 (cloud_mask_tests_combined_flags _ _ "B8" (0, 0) 0%N 3000%N
                    Hout eq_refl eq_refl)).
    reflexivity.
Defined.


Lemma nd_px_range (x y v : Q) : EE.nd_px x y = Some v -> (-1 <= v <= 1)%Q.
Proof.
  unfold EE.nd_px.
  destruct (Qle_bool 0 x) eqn:Hx; [|discriminate].
  destruct (Qle_bool 0 y) eqn:Hy; [|discriminate].
  cbn [andb]. intros [= <-]. apply Qle_bool_iff in Hx, Hy.
  destruct (Qlt_le_dec 0 (x + y)) as [Hpos|Hzero].
  - split.
    + apply Qle_shift_div_l; [exact Hpos|].
      unfold Qle, Qlt, Qplus, Qminus, Qopp, Qmult in *. cbn in *. nia.
    + apply Qle_shift_div_r; [exact Hpos|].
      unfold Qle, Qlt, Qplus, Qminus, Qopp, Qmult in *. cbn in *. nia.
  - assert (Hsum : (x + y == 0)%Q).
    { apply Qle_antisym; [exact Hzero|].
      unfold Qle, Qplus in *. cbn in *. nia. }
    unfold Qdiv. rewrite Hsum. unfold Qinv. cbn. rewrite Qmult_0_r. split; discriminate.
Qed.

(** X9.  Every valid pixel of the band [add_ndvi] appends lies between -1
    and 1, and the pixel is valid exactly where the near-infrared and the
    red value are both valid and non-negative. *)
Theorem ndvi_between_minus_one_and_one (image : Image Q) (b8 b4 ndvi : raster Q) :
  find_band "B8" image = Some b8 ->
  find_band "B4" image = Some b4 ->
  add_ndvi image = Ok (image ++ [("NDVI", ndvi)]) ->
  forall c,
    (forall v, ndvi !! c = Some v -> (-1 <= v <= 1)%Q) /\
    (is_Some (ndvi !! c)
     <-> exists nir red, b8 !! c = Some nir /\ b4 !! c = Some red
                         /\ (0 <= nir)%Q /\ (0 <= red)%Q).
Proof.
  intros H8 H4 Hout c. rewrite (add_ndvi_Ok _ _ _ H8 H4) in Hout.
  assert (Hnd : ndvi = EE.nd_raster b8 b4).
  { inversion Hout as [Heq]. apply app_inv_head in Heq. by inversion Heq. }
  subst ndvi. unfold EE.nd_raster. rewrite map_lookup_imap.
  destruct (b8 !! c) as [nir|]; cbn [mbind option_bind].
  2:{ split; [discriminate|]. split; [by intros [? ?] | by intros (? & ? & ? & _)]. }
  destruct (b4 !! c) as [red|]; cbn [mbind option_bind].
  2:{ split; [discriminate|]. split; [by intros [? ?] | by intros (? & ? & _ & ? & _)]. }
  split; [intros v; apply nd_px_range|]. split.
  - intros [v Hv]. exists nir, red. unfold EE.nd_px in Hv.
    destruct (Qle_bool 0 nir) eqn:Hn; [|discriminate].
    destruct (Qle_bool 0 red) eqn:Hr; [|discriminate].
    apply Qle_bool_iff in Hn, Hr. auto.
  - intros (nir' & red' & [= <-] & [= <-] & Hn & Hr).
    rewrite (nd_px_nonneg _ _ Hn Hr). eauto.
Qed.

Lemma ndvi_between_minus_one_and_one_witness :
  let image : Image Q := [("B4", {[ (0, 0) := 0.2%Q ]}); ("B8", {[ (0, 0) := 0.5%Q ]})] in
  let ndvi := EE.nd_raster {[ (0, 0) := 0.5%Q ]} {[ (0, 0) := 0.2%Q ]} in
  add_ndvi image = Ok (image ++ [("NDVI", ndvi)]) /\
  exists v, ndvi !! (0, 0) = Some v /\ (-1 <= v <= 1)%Q.
Proof.
  intros image ndvi. split; [reflexivity|].
  exists ((0.5 - 0.2) / (0.5 + 0.2))%Q. split; [reflexivity|].
  exact (proj1 (ndvi_between_minus_one_and_one image {[ (0, 0) := 0.5%Q ]}
                  {[ (0, 0) := 0.2%Q ]} ndvi eq_refl eq_refl eq_refl (0, 0))
           _ eq_refl).
Defined.

(* ===================================================================== *)
(** * More on the composite *)
(* ===================================================================== *)

Section CompositeMore.
Context {P : Platform}.

Lemma Forall2_with_l {A B} (R : A -> B -> Prop) (Pl : A -> Prop) (l : list A) (k : list B) :
  Forall2 R l k -> Forall Pl l -> Forall2 (fun x y => R x y /\ Pl x) l k.
Proof.
  intros HR. induction HR as [|x y l k Hxy _ IH]; intros HPl; [constructor|].
  inversion HPl; subst. constructor; auto.
Qed.

(** The index band of a prepared scene, in terms of the scene itself. *)
Lemma prepared_index (image : Image N) (scaled out : Image Q) (c : coord) :
  mask_s2_clouds image = Ok scaled -> add_ndvi scaled = Ok out ->
  "NDVI" ∉ bandNames image ->
  value_at out "NDVI" c = scene_index image c.
Proof.
  intros Hscaled (b8 & b4 & H8 & H4 & ->)%add_ndvi_inv Hfresh.
  unfold value_at at 1. rewrite find_band_app, find_band_None.
  2:{ by rewrite (mask_s2_clouds_names _ _ Hscaled). }
  cbn [find_band]. destruct (decide ("NDVI" = "NDVI")); [|done].
  cbn [mbind option_bind]. unfold EE.nd_raster. rewrite map_lookup_imap.
  unfold scene_index.
  rewrite <- !(mask_s2_clouds_value _ _ _ _ Hscaled). unfold value_at. rewrite H8, H4.
  cbn [mbind option_bind].
  destruct (b8 !! c) as [nir|] eqn:Hn; cbn [mbind option_bind]; [|reflexivity].
  destruct (b4 !! c) as [red|] eqn:Hr; cbn [mbind option_bind]; [|reflexivity].
  apply nd_px_nonneg.
  - exact (mask_s2_clouds_nonneg _ _ _ _ _ _ Hscaled H8 Hn).
  - exact (mask_s2_clouds_nonneg _ _ _ _ _ _ Hscaled H4 Hr).
Qed.

Lemma prepared_pairs (l : list Scene) (masked indexed : list (Image Q)) :
  Forall2 (fun image out => mask_s2_clouds image = Ok out) (pixels <$> l) masked ->
  Forall2 (fun image out => add_ndvi image = Ok out) masked indexed ->
  Forall2 (fun s out => exists scaled,
             mask_s2_clouds (pixels s) = Ok scaled /\ add_ndvi scaled = Ok out) l indexed.
Proof.
  revert masked indexed. induction l as [|s l IH]; intros masked indexed Hm Hi.
  - rewrite fmap_nil in Hm. inversion Hm; subst. inversion Hi; subst. constructor.
  - rewrite fmap_cons in Hm. inversion Hm as [|? scaled ? masked' Hs Hm']; subst.
    inversion Hi as [|? out ? indexed' Ho Hi']; subst.
    constructor; [eauto | by apply (IH masked')].
Qed.

Lemma composite_index_value (col : list Scene) (composite : Image Q) (c : coord) :
  composite_of col = Ok composite ->
  (forall s, s ∈ col -> "NDVI" ∉ bandNames (pixels s)) ->
  value_at composite "NDVI" c
  = match omap (fun s => scene_index (pixels s) c) col with
    | [] => None
    | vs => Some (median_of vs)
    end.
Proof.
  intros Hc Hfresh.
  destruct (composite_of_inv _ _ Hc) as (masked & indexed & Hm & Hi & Hsel).
  assert (Hin : "NDVI" ∈ FEATURE_BANDS) by (unfold FEATURE_BANDS, BANDS; by_membership).
  destruct (select_find _ _ _ _ Hsel Hin) as [Hfind [r Hr]].
  unfold value_at at 1. rewrite Hfind, Hr. cbn [mbind option_bind].
  rewrite (find_band_median _ _ _ Hr), lookup_fmap, gather_lookup, omap_omap.
  change (fun x : Image Q => find_band "NDVI" x ≫= fun r0 : raster Q => r0 !! c)
    with (fun x : Image Q => value_at x "NDVI" c).
  pose proof (Forall2_with_l _ (fun s => s ∈ col) _ _ (prepared_pairs _ _ _ Hm Hi)
                (proj2 (Forall_forall _ _) (fun s Hs => Hs))) as Hpairs.
  rewrite <- (omap_Forall2 _ (fun s : Scene => scene_index (pixels s) c)
                (fun i : Image Q => value_at i "NDVI" c) _ _ Hpairs).
  - destruct (omap _ col); reflexivity.
  - intros s out [(scaled & Hscaled & Hout) Hs]. symmetry.
    apply (prepared_index _ _ _ _ Hscaled Hout). by apply Hfresh.
Qed.

End CompositeMore.

(** X10.  A composite that is built has exactly the bands B2, B3, B4, B8 and
    NDVI, in this order: the quality band and every other band of the scenes
    are gone.  It is built from at least one scene, and a pixel of a
    reflectance band is valid exactly when some scene has a clear-sky value
    there, so that a pixel that is cloudy in every scene stays masked. *)
Theorem composite_bands_and_validity {P : Platform}
    (col : list Scene) (composite : Image Q) :
  composite_of col = Ok composite ->
  bandNames composite = ["B2"; "B3"; "B4"; "B8"; "NDVI"] /\
  find_band "QA60" composite = None /\
  col ≠ [] /\
  forall b c, b ∈ BANDS ->
    (is_Some (value_at composite b c)
     <-> exists s, s ∈ col /\ is_Some (contribution (pixels s) b c)).
Proof.
  intros Hc.
  destruct (composite_of_inv _ _ Hc) as (masked & indexed & Hm & Hi & Hsel).
  pose proof (select_names _ _ _ Hsel) as Hnames.
  split; [exact Hnames|]. split; [|split].
  - apply find_band_None. rewrite Hnames. unfold FEATURE_BANDS, BANDS.
    intros Hin. repeat (apply elem_of_cons in Hin as [Hin|Hin]; [discriminate|]).
    by apply elem_of_nil in Hin.
  - intros ->. rewrite fmap_nil in Hm. inversion Hm; subst. inversion Hi; subst.
    discriminate Hsel.
  - intros b c Hb. rewrite (composite_value _ _ _ c Hc Hb).
    destruct (omap (fun s => contribution (pixels s) b c) col) as [|v vs] eqn:Ho.
    + split; [by intros [? ?]|]. intros (s & Hs & [v Hv]).
      assert (Hin : v ∈ omap (fun s => contribution (pixels s) b c) col)
        by (apply list_elem_of_omap; eauto).
      rewrite Ho in Hin. by apply elem_of_nil in Hin.
    + split; [|eauto]. intros _.
      assert (Hin : v ∈ omap (fun s => contribution (pixels s) b c) col)
        by (rewrite Ho; constructor).
      apply list_elem_of_omap in Hin as (s & Hs & Hv). eauto.
Qed.

Lemma composite_bands_and_validity_witness :
  bandNames (composite_image Demo.demo_outputs) = ["B2"; "B3"; "B4"; "B8"; "NDVI"] /\
  find_band "QA60" (composite_image Demo.demo_outputs) = None.
Proof.
  destruct (composite_bands_and_validity (P := Demo.demo) _ _ demo_composite)
    as (Hnames & Hqa & _).
  split; assumption.
Defined.

(** X11.  The index band of the composite is, pixel by pixel, the median
    over the scenes of the index each scene yields by itself (the index is
    added before the median is taken), provided no scene already has a band
    called ["NDVI"]. *)
Theorem composite_index_is_median_of_scene_indices {P : Platform}
    (col : list Scene) (composite : Image Q) :
  composite_of col = Ok composite ->
  (forall s, s ∈ col -> "NDVI" ∉ bandNames (pixels s)) ->
  forall c,
    value_at composite "NDVI" c
    = match omap (fun s => scene_index (pixels s) c) col with
      | [] => None
      | vs => Some (median_of vs)
      end /\
    (forall v, value_at composite "NDVI" c = Some v ->
               exists s, s ∈ col /\ is_Some (contribution (pixels s) "B8" c)
                         /\ is_Some (contribution (pixels s) "B4" c)).
Proof.
  intros Hc Hfresh c. rewrite (composite_index_value _ _ c Hc Hfresh). split; [reflexivity|].
  intros v Hv.
  destruct (omap (fun s => scene_index (pixels s) c) col) as [|w ws] eqn:Ho; [discriminate|].
  assert (Hin : w ∈ omap (fun s => scene_index (pixels s) c) col)
    by (rewrite Ho; constructor).
  apply list_elem_of_omap in Hin as (s & Hs & Hw). exists s. split; [exact Hs|].
  unfold scene_index in Hw.
  destruct (contribution (pixels s) "B8" c); [|discriminate].
  destruct (contribution (pixels s) "B4" c); [|discriminate]. eauto.
Qed.

Lemma demo_scenes_have_no_index (s : Scene) :
  s ∈ [Demo.july_05; Demo.july_15] -> "NDVI" ∉ bandNames (pixels s).
Proof.
  intros Hs Hin.
  apply elem_of_cons in Hs as [->|Hs]; [|apply list_elem_of_singleton in Hs as ->];
    repeat (apply elem_of_cons in Hin as [Hin|Hin]; [discriminate|]);
    by apply elem_of_nil in Hin.
Qed.

Lemma composite_index_is_median_of_scene_indices_witness :
  value_at (composite_image Demo.demo_outputs) "NDVI" (1, 1)
  = Some ((rescaled 1750 - rescaled 1850) / (rescaled 1750 + rescaled 1850))%Q.
Proof.
  rewrite (proj1 (composite_index_is_median_of_scene_indices (P := Demo.demo) _ _
                    demo_composite demo_scenes_have_no_index (1, 1))).
  reflexivity.
Defined.




(* ===================================================================== *)
(** * Selecting scenes *)
(* ===================================================================== *)

Section Selection.
Context {P : Platform}.

Lemma filter_filter {A} (p q : A -> bool) (l : list A) :
  List.filter p (List.filter q l) = List.filter (fun x => q x && p x) l.
Proof.
  induction l as [|x l IH]; [reflexivity|]. cbn [List.filter].
  destruct (q x); cbn [List.filter andb]; [|exact IH]. by rewrite IH.
Qed.

Lemma filter_length_mono {A} (p q : A -> bool) (l : list A) :
  (forall x, p x = true -> q x = true) ->
  (length (List.filter p l) <= length (List.filter q l))%nat.
Proof.
  intros Hpq. induction l as [|x l IH]; [reflexivity|]. cbn [List.filter].
  destruct (p x) eqn:Hp.
  - rewrite (Hpq x Hp). cbn [length]. lia.
  - destruct (q x); cbn [length]; lia.
Qed.

Lemma s2_collection_selected (cfg : Config) :
  s2_collection cfg = List.filter (selected cfg) (catalog "COPERNICUS/S2_SR_HARMONIZED").
Proof.
  unfold s2_collection, filter_lt, filterDate, filterBounds, ImageCollection.
  rewrite !filter_filter. apply List.filter_ext. intros s. unfold selected.
  by rewrite !andb_assoc.
Qed.

Lemma selected_relaxed (cfg cfg' : Config) (s : Scene) :
  aoi cfg' = aoi cfg ->
  date_millis (start_date cfg') <= date_millis (start_date cfg) ->
  date_millis (end_date cfg) <= date_millis (end_date cfg') ->
  (cloud_ceiling cfg <= cloud_ceiling cfg')%Q ->
  selected cfg s = true -> selected cfg' s = true.
Proof.
  intros Haoi Hstart Hstop Hcloud. unfold selected. rewrite Haoi.
  rewrite !andb_true_iff, !Z.leb_le, !Z.ltb_lt.
  intros [[Hb Hd] Hc]. split; [split; [exact Hb | lia]|].
  destruct (metadata s !! "CLOUDY_PIXEL_PERCENTAGE" ≫= prop_Q) as [v|]; [|discriminate].
  apply negb_true_iff in Hc. apply negb_true_iff.
  destruct (Qle_bool (cloud_ceiling cfg') v) eqn:E; [|reflexivity].
  apply Qle_bool_iff in E.
  assert (Hle : Qle_bool (cloud_ceiling cfg) v = true)
    by (apply Qle_bool_iff; eapply Qle_trans; eauto).
  congruence.
Qed.

End Selection.

(** X13.  Relaxing the selection never loses a scene: with the same area, a
    start date that is not later, an end date that is not earlier and a
    cloud ceiling that is not lower, every scene selected before is selected
    again, in the same number or more; so if even the relaxed selection is
    empty, the run at the stricter settings ends with the [ValueError] of
    the diagnostic check. *)
Theorem relaxing_the_filters_keeps_scenes {P : Platform} (cfg cfg' : Config) :
  aoi cfg' = aoi cfg ->
  date_millis (start_date cfg') <= date_millis (start_date cfg) ->
  date_millis (end_date cfg) <= date_millis (end_date cfg') ->
  (cloud_ceiling cfg <= cloud_ceiling cfg')%Q ->
  (forall s, s ∈ s2_collection cfg -> s ∈ s2_collection cfg') /\
  (size (s2_collection cfg) <= size (s2_collection cfg'))%nat /\
  (size (s2_collection cfg') = 0%nat ->
   (run (pipeline cfg)).1
   = Raise (ValueError "The GEE image collection is empty. Try expanding the date range.")).
Proof.
  intros Haoi Hstart Hstop Hcloud.
  assert (Hlen : (size (s2_collection cfg) <= size (s2_collection cfg'))%nat).
  { unfold size. rewrite !s2_collection_selected. apply filter_length_mono.
    intros s. by apply selected_relaxed. }
  split; [|split].
  - intros s. rewrite !s2_collection_selected, !list_elem_of_In, !filter_In.
    intros [Hs Hsel]. split; [exact Hs|]. by apply (selected_relaxed cfg cfg').
  - exact Hlen.
  - intros Hzero. rewrite run_pipeline. cbv zeta.
    replace (size (s2_collection cfg)) with 0%nat by lia. reflexivity.
Qed.

Lemma relaxing_the_filters_keeps_scenes_witness :
  (size (s2_collection (P := Demo.demo) (mkConfig AOI START_DATE END_DATE 5%Q))
   <= size (s2_collection (P := Demo.demo) notebook_config))%nat.
Proof.
  apply (relaxing_the_filters_keeps_scenes (P := Demo.demo)
           (mkConfig AOI START_DATE END_DATE 5%Q) notebook_config);
    [reflexivity | reflexivity | reflexivity | discriminate].
Defined.

(* ===================================================================== *)
(** * What is shown on the map *)
(* ===================================================================== *)

(** X14.  In a run that completes, the map is centred on the area of
    interest at zoom 12 and holds three layers, in this order: the composite
    of the run in true colour, its classification, and its boundaries.  The
    three bands of the true-colour layer are bands of the composite, and the
    palette of the classification layer gives, at the position of each class
    value of [CLASSES], the colour [CLASSES] gives that class. *)
Theorem map_shows_the_outputs {P : Platform} (cfg : Config) (out : Outputs)
    (log : list string) :
  run (pipeline cfg) = (Ok out, log) ->
  exists label_vis vector_vis,
    center (Map out) = Some (aoi cfg, 12) /\
    layers (Map out)
    = [ RealLayer (composite_image out) rgb_vis_params "True Color Composite";
        LabelLayer (classification_map out) label_vis "Intermediate Segmentation";
        VectorLayer (field_boundaries out) vector_vis "Extracted Field Boundaries" ] /\
    vis_bands rgb_vis_params = ["B4"; "B3"; "B2"] /\
    (forall b, b ∈ vis_bands rgb_vis_params ->
               is_Some (find_band b (composite_image out))) /\
    (vis_min label_vis = Some 0%Q /\ vis_max label_vis = Some 1%Q) /\
    (forall class info,
        CLASSES !! class = Some info ->
        vis_palette label_vis !! Z.to_nat (value info) = Some (color info)) /\
    vis_color vector_vis = Some "yellow".
Proof.
  intros (_ & _ & Hc & _ & _ & _ & _ & _ & _ & Hmap & _)%pipeline_Ok_inv.
  rewrite Hmap. unfold show. cbn [center layers].
  eexists _, _. split; [reflexivity|]. split; [reflexivity|]. split; [reflexivity|].
  split; [|split; [split; reflexivity|split; [|reflexivity]]].
  - intros b Hb.
    destruct (composite_of_inv _ _ Hc) as (masked & indexed & _ & _ & Hsel).
    apply find_band_is_Some. rewrite (select_names _ _ _ Hsel).
    cbn [vis_bands rgb_vis_params] in Hb. unfold FEATURE_BANDS, BANDS.
    repeat (apply elem_of_cons in Hb as [->|Hb]; [by_membership|]).
    by apply elem_of_nil in Hb.
  - intros class info Hclass. cbn [vis_palette]. unfold CLASSES in Hclass.
    apply lookup_insert_Some in Hclass as [[_ <-]|[_ Hclass]]; [reflexivity|].
    apply lookup_insert_Some in Hclass as [[_ <-]|[_ Hclass]]; [reflexivity|].
    by rewrite lookup_empty in Hclass.
Qed.

Lemma map_shows_the_outputs_witness :
  center (Map Demo.demo_outputs) = Some (AOI, 12) /\
  length (layers (Map Demo.demo_outputs)) = 3%nat.
Proof.
  destruct (map_shows_the_outputs (P := Demo.demo) notebook_config Demo.demo_outputs _
              demo_run) as (label_vis & vector_vis & Hcenter & Hlayers & _).
  split; [exact Hcenter|]. rewrite Hlayers. reflexivity.
Defined.

(* ===================================================================== *)
(** * What the boundaries carry *)
(* ===================================================================== *)

(** X15.  In a run that completes, every boundary feature has a geometry
    and carries at most two properties, ['label'] and ['count']: the count
    is that of the pixels of its region, and the label, when there is one,
    is 0 (a region without edge) or 1 (a region of edge pixels). *)
Theorem boundary_features_carry_label_and_count {P : Platform} (cfg : Config)
    (out : Outputs) (log : list string) :
  run (pipeline cfg) = (Ok out, log) ->
  forall f, f ∈ field_boundaries out ->
    is_Some (geometry f) /\
    (exists k : nat, properties f !! "count" = Some (PInt (Z.of_nat k))) /\
    (forall p, properties f !! "label" = Some p -> p = PInt 0 \/ p = PInt 1) /\
    (forall name, is_Some (properties f !! name) -> name = "label" \/ name = "count").
Proof.
  intros (_ & _ & _ & _ & _ & _ & _ & Hbin & Hvec & _)%pipeline_Ok_inv f Hf.
  unfold vectorize in Hvec.
  destruct (reduceToVectors_inv _ _ _ _ _ _ _ Hvec) as (name & r & rest & Himg & Hfc).
  rewrite Hfc in Hf. apply list_elem_of_fmap in Hf as (cells & -> & _).
  cbn [geometry properties reduce_region].
  assert (Hr : forall c v, r !! c = Some v -> v = 0 \/ v = 1).
  { intros c v Hv. pose proof (binarize_is_binary (edges out)) as Hb.
    rewrite <- Hbin, Himg in Hb. apply (Hb (name, r) c v); [constructor | exact Hv]. }
  split; [eauto|].
  destruct (region_label r cells) as [v|] eqn:Hlabel.
  - split; [|split].
    + exists (length cells). rewrite lookup_insert_ne by discriminate.
      apply lookup_singleton_eq.
    + intros p. rewrite lookup_insert_eq. intros [= <-].
      unfold region_label in Hlabel. destruct (head cells) as [c|]; [|discriminate].
      cbn [mbind option_bind] in Hlabel. destruct (Hr c v Hlabel) as [->| ->]; auto.
    + intros n [p Hp]. destruct (decide (n = "label")) as [->|Hn]; [by left|].
      rewrite lookup_insert_ne in Hp by congruence.
      apply lookup_singleton_Some in Hp as [<- _]. by right.
  - split; [|split].
    + exists (length cells). apply lookup_singleton_eq.
    + intros p Hp. apply lookup_singleton_Some in Hp as [Hp _]. discriminate.
    + intros n [p Hp]. apply lookup_singleton_Some in Hp as [<- _]. by right.
Qed.

Lemma boundary_features_carry_label_and_count_witness :
  Forall (fun f => is_Some (geometry f)
                   /\ exists k : nat, properties f !! "count" = Some (PInt (Z.of_nat k)))
         (field_boundaries Demo.demo_outputs).
Proof.
  apply Forall_forall. intros f Hf.
  destruct (boundary_features_carry_label_and_count (P := Demo.demo) notebook_config
              Demo.demo_outputs _ demo_run f Hf) as (Hg & Hcount & _).
  split; assumption.
Defined.

(* ===================================================================== *)
(** * From samples to training rows *)
(* ===================================================================== *)

Section Rows.
Context {P : Platform}.


Lemma omap_nil_iff {A B} (f : A -> option B) (l : list A) :
  omap f l = [] <-> forall x, x ∈ l -> f x = None.
Proof.
  induction l as [|x l IH]; cbn [omap list_omap].
  - split; [intros _ x Hx; by apply elem_of_nil in Hx | reflexivity].
  - destruct (f x) as [y|] eqn:Hy.
    + split; [discriminate|]. intros Hall. specialize (Hall x ltac:(constructor)). congruence.
    + rewrite IH. split.
      * intros Hall z [->|Hz]%elem_of_cons; auto.
      * intros Hall z Hz. apply Hall. by constructor.
Qed.








End Rows.



(* ===================================================================== *)
(** * What the configuration reaches *)
(* ===================================================================== *)

(** X17.  The dates and the cloud ceiling act only through the scenes they
    select, and the area of interest, besides selecting scenes, only clips
    the vectorisation and centres the map: two runs that complete on the
    same selection of scenes have the same composite, training data,
    classifier, classification and edge rasters, whatever their areas of
    interest (neither the composite nor the sampling is clipped to the
    area), and with equal areas the two runs are equal altogether. *)
Theorem configuration_acts_through_selection {P : Platform} (cfg cfg' : Config) :
  s2_collection cfg = s2_collection cfg' ->
  (forall out out' log log',
      run (pipeline cfg) = (Ok out, log) -> run (pipeline cfg') = (Ok out', log') ->
      composite_image out = composite_image out' /\
      training_data out = training_data out' /\
      classifier out = classifier out' /\
      classification_map out = classification_map out' /\
      edges out = edges out' /\
      binary_edges out = binary_edges out' /\
      log = log') /\
  (aoi cfg = aoi cfg' -> run (pipeline cfg) = run (pipeline cfg')).
Proof.
  intros Hsel. split.
  - intros out out' log log' Hrun Hrun'.
    apply pipeline_Ok_inv in Hrun as (_ & _ & Hc & Ht & Hf & Hcl & He & Hb & _ & _ & Hlog).
    apply pipeline_Ok_inv in Hrun' as (_ & _ & Hc' & Ht' & Hf' & Hcl' & He' & Hb' & _ & _ & Hlog').
    rewrite Hsel in Hc, Hlog. rewrite Hc in Hc'. inversion Hc' as [Hcomp].
    rewrite <- Hcomp in Ht'. rewrite <- Ht in Ht'. rewrite Ht' in Hf'. rewrite Hf in Hf'.
    inversion Hf' as [Hclf]. rewrite <- Hcomp, <- Hclf in Hcl'. rewrite Hcl in Hcl'.
    inversion Hcl' as [Hmap]. rewrite <- Hmap in He'. rewrite <- He in He'.
    rewrite He' in Hb'. rewrite <- Hb in Hb'.
    repeat split; congruence.
  - intros Haoi. rewrite !run_pipeline. cbv zeta. rewrite Hsel, Haoi. reflexivity.
Qed.

Lemma configuration_acts_through_selection_witness :
  run (pipeline (P := Demo.demo) (mkConfig AOI START_DATE END_DATE 8%Q))
  = run (pipeline (P := Demo.demo) notebook_config).
Proof.
  apply (proj2 (configuration_acts_through_selection (P := Demo.demo)
                  (mkConfig AOI START_DATE END_DATE 8%Q) notebook_config
                  ltac:(vm_cast_no_check (eq_refl [Demo.july_05; Demo.july_15])))).
  reflexivity.
Defined.
